(** * Dragon Dash dashboard ([app.py]): data generation, filtering, metrics

    A shallow embedding of the Streamlit script [app.py].  Python floats are
    IEEE-754 binary64 values and are modelled by Rocq's primitive floats;
    Python integers are [Z]; Python strings are [string] (their UTF-8 bytes).
    The global [random] module state is threaded explicitly through the three
    generators; the widgets of the page are the fields of one record. *)

From Stdlib Require Import ZArith List String Ascii Bool Lia.
From Stdlib Require Import Floats.
From Stdlib Require Import DecimalString DecimalZ FinFun.
Import ListNotations.
Local Open Scope Z_scope.
Local Open Scope string_scope.
Set Warnings "-inexact-float".

(* ===================================================================== *)
(** ** Python numbers *)
(* ===================================================================== *)

Module PyFloat.

Local Open Scope float_scope.

(** [float(n)] for a Python integer [n]: the nearest binary64 value,
    ties to even. *)
Definition of_int (n : Z) : float :=
  SF2Prim (binary_normalize prec emax n 0%Z false).

(** [int(x)]: truncation towards zero; [None] stands for the
    [ValueError] / [OverflowError] raised on NaN and the infinities. *)
Definition to_int (x : float) : option Z :=
  match Prim2SF x with
  | S754_zero _ => Some 0%Z
  | S754_finite s m e =>
      let v := if (0 <=? e)%Z then (Zpos m * 2 ^ e)%Z
               else (Zpos m / 2 ^ (- e))%Z in
      Some (if s then (- v)%Z else v)
  | S754_infinity _ | S754_nan => None
  end.

(** The builtin [max(a, b)] on two arguments: it keeps [a] unless
    [b > a]. *)
Definition max (a b : float) : float := if a <? b then b else a.

End PyFloat.

Module PyRound.

(** The nearest binary64 value to the rational [n / d] ([d > 0]), ties to
    even: the quotient is taken with 65 extra bits and a sticky bit, then
    rounded once.  [szero] is the sign given to a zero result. *)
Definition nearest_ratio (n d : Z) (szero : bool) : float :=
  let k := 64%Z in
  let a := (Z.abs n * 2 ^ k)%Z in
  let q := (a / d)%Z in
  let sticky := if (a mod d =? 0)%Z then 0%Z else 1%Z in
  let m := (2 * q + sticky)%Z in
  SF2Prim (binary_normalize prec emax
             (if (n <? 0)%Z then (- m)%Z else m) (- (k + 1))%Z szero).

(** Round the rational [a / b] ([b > 0], [a >= 0]) to an integer, ties to
    the even neighbour. *)
Definition round_half_even (a b : Z) : Z :=
  let q := (a / b)%Z in
  let r := (a mod b)%Z in
  match (2 * r ?= b)%Z with
  | Lt => q
  | Gt => (q + 1)%Z
  | Eq => if Z.even q then q else (q + 1)%Z
  end.

(** The builtin [round(x, 2)] on a float: the exact value of [x] is rounded
    to two decimals (ties to even) and the decimal is read back as the
    nearest float.  NaN and the infinities round to themselves. *)
Definition round2 (x : float) : float :=
  match Prim2SF x with
  | S754_finite s m e =>
      if (0 <=? e)%Z then x
      else
        let n := round_half_even (Zpos m * 100) (2 ^ (- e)) in
        nearest_ratio (if s then (- n)%Z else n) 100 s
  | _ => x
  end.

End PyRound.

(* ===================================================================== *)
(** ** Python strings *)
(* ===================================================================== *)

Module PyStr.

(** [str(n)] for an integer. *)
Definition str (n : Z) : string := NilEmpty.string_of_int (Z.to_int n).

Fixpoint zeros (k : nat) : string :=
  match k with
  | O => ""
  | S k' => String "0" (zeros k')
  end.

(** The format specification [0wd] (as in [f"{n:04d}"]): the decimal
    digits, padded with zeros after the sign up to the width [w]. *)
Definition format_0d (w : nat) (n : Z) : string :=
  if (n <? 0)%Z then
    let digits := str (- n) in
    String "-" (zeros (w - 1 - String.length digits) ++ digits)
  else
    let digits := str n in
    zeros (w - String.length digits) ++ digits.

Definition is_upper (c : ascii) : bool :=
  let n := nat_of_ascii c in (65 <=? n)%nat && (n <=? 90)%nat.

Definition lower_char (c : ascii) : ascii :=
  if is_upper c then ascii_of_nat (nat_of_ascii c + 32) else c.

(** [s.lower()] on ASCII text. *)
Fixpoint lower (s : string) : string :=
  match s with
  | EmptyString => EmptyString
  | String c s' => String (lower_char c) (lower s')
  end.

(** *** The fragment of [re] reached by the search box

    [Series.str.contains(pat, case=False, na=False)] leaves [regex] at its
    default [True]: the pattern is compiled with [re.IGNORECASE] and
    looked for with [re.search].  The model covers patterns of ASCII
    characters in which the only special character is the dot; every
    other special character makes [compile] answer [None] (the pattern is
    outside the model; [re.compile] itself raises on some of them, such
    as an unbalanced parenthesis). *)

Inductive atom : Type :=
| Lit (c : ascii)     (* an ordinary character *)
| AnyChar.            (* [.]: any character except a newline *)

Definition is_special (c : ascii) : bool :=
  existsb (Ascii.eqb c)
    ["."; "^"; "$"; "*"; "+"; "?"; "{"; "}"; "["; "]"; "\"; "|"; "("; ")"]%char.

Definition is_ascii (c : ascii) : bool := (nat_of_ascii c <? 128)%nat.

Fixpoint compile (pat : string) : option (list atom) :=
  match pat with
  | EmptyString => Some []
  | String c rest =>
      if negb (is_ascii c) then None
      else if Ascii.eqb c "." then option_map (cons AnyChar) (compile rest)
      else if is_special c then None
      else option_map (cons (Lit c)) (compile rest)
  end.

Definition atom_matches (a : atom) (c : ascii) : bool :=
  match a with
  | Lit p => Ascii.eqb (lower_char p) (lower_char c)
  | AnyChar => negb (Ascii.eqb c "010")
  end.

(** Does the pattern match at the start of [s]? *)
Fixpoint match_here (re : list atom) (s : string) : bool :=
  match re, s with
  | [], _ => true
  | a :: re', String c s' => atom_matches a c && match_here re' s'
  | _ :: _, EmptyString => false
  end.

(** [re.search]: does the pattern match at some position of [s]? *)
Fixpoint search (re : list atom) (s : string) : bool :=
  match_here re s
  || match s with
     | EmptyString => false
     | String _ s' => search re s'
     end.

(** What the specification asks of the search box, for comparison: the
    text contains the term as a substring once both are lower-cased. *)
Fixpoint starts_with (t s : string) : bool :=
  match t, s with
  | EmptyString, _ => true
  | String a t', String b s' => Ascii.eqb a b && starts_with t' s'
  | String _ _, EmptyString => false
  end.

Fixpoint has_substring (t s : string) : bool :=
  starts_with t s
  || match s with
     | EmptyString => false
     | String _ s' => has_substring t s'
     end.

Definition contains_ignoring_case (term text : string) : bool :=
  has_substring (lower term) (lower text).

End PyStr.

(* ===================================================================== *)
(** ** The [random] module *)
(* ===================================================================== *)

Module Random.

(** The generator behind the module-level functions: its state, how
    [seed] sets it, and the two primitives everything else is derived
    from ([Random.random] and [Random._randbelow]). *)
Class Source : Type := {
  state : Type;
  seed : Z -> state;
  random : state -> float * state;
  randbelow : Z -> state -> Z * state
}.

(** Computations that read and advance the generator. *)
Definition M {R : Source} (A : Type) : Type := state -> A * state.

Definition ret {R : Source} {A : Type} (a : A) : M A := fun s => (a, s).

Definition bind {R : Source} {A B : Type} (c : M A) (k : A -> M B) : M B :=
  fun s => let (a, s') := c s in k a s'.

Declare Scope rand_scope.
Delimit Scope rand_scope with rand.
Notation "x <- c ;; k" := (bind c (fun x => k))
  (at level 61, c at next level, right associativity) : rand_scope.

Local Open Scope rand_scope.
Local Open Scope float_scope.

(** [uniform(a, b)] is [a + (b - a) * random()]. *)
Definition uniform {R : Source} (a b : float) : M float :=
  r <- random ;; ret (a + (b - a) * r).

(** [randint(a, b)] is [a + _randbelow(b - a + 1)]. *)
Definition randint {R : Source} (a b : Z) : M Z :=
  n <- randbelow (b - a + 1)%Z ;; ret (a + n)%Z.

(** [choice(seq)] is [seq[_randbelow(len(seq))]]; the sequences of the
    script are non-empty literals, [d] only makes the lookup total. *)
Definition choice {R : Source} {A : Type} (d : A) (seq : list A) : M A :=
  i <- randbelow (Z.of_nat (List.length seq)) ;; ret (nth (Z.to_nat i) seq d).

(** [for x in xs: out.append(body(x))], returning [out]. *)
Fixpoint for_each {R : Source} {A B : Type} (body : A -> M B) (xs : list A)
  : M (list B) :=
  match xs with
  | [] => ret []
  | x :: xs' => b <- body x ;; bs <- for_each body xs' ;; ret (b :: bs)
  end.

End Random.

(** [range(n)]. *)
Definition range (n : Z) : list Z := map Z.of_nat (seq 0 (Z.to_nat n)).

(* ===================================================================== *)
(** ** The three datasets *)
(* ===================================================================== *)

(** [datetime.now()]: the calendar day as its ordinal number and the time of
    day in minutes.  A date column holds [strftime("%Y-%m-%d")] of a date
    and is read back with [pd.to_datetime]; the model keeps the ordinal of
    the day that text denotes. *)
Record datetime : Type := { day : Z; minute : Z }.

(** A row of the Client Registry (the dict appended by
    [generate_demo_clients]). *)
Record client : Type := {
  client_id : string;        (* "Client ID" *)
  name : string;             (* "Name" *)
  email : string;            (* "Email" *)
  verified : string;         (* "Verified" *)
  max_balance : float;       (* "Max Balance" *)
  current_balance : float;   (* "Current Balance" *)
  cash_app_sent : float;     (* "Cash App Sent" *)
  zelle_sent : float;        (* "Zelle Sent" *)
  paypal_sent : float;       (* "PayPal Sent" *)
  bank_transfer : float;     (* "Bank Transfer" *)
  total_sent : float;        (* "Total Sent" *)
  payout_status : string;    (* "Payout Status" *)
  last_activity : Z;         (* "Last Activity" *)
  join_date : Z              (* "Join Date" *)
}.

(** A row of the Daily Ledger. *)
Record log_entry : Type := {
  log_date : Z;               (* "Date" *)
  log_cash_app : float;       (* "Cash App" *)
  log_zelle : float;          (* "Zelle" *)
  log_paypal : float;         (* "PayPal" *)
  log_bank_transfer : float;  (* "Bank Transfer" *)
  daily_total : float;        (* "Daily Total" *)
  cumulative_total : float;   (* "Cumulative Total" *)
  transactions : Z            (* "Transactions" *)
}.

(** A row of the Payout Journal. *)
Record payout : Type := {
  confirmation_id : string;   (* "Confirmation ID" *)
  amount : float;             (* "Amount" *)
  method : string;            (* "Method" *)
  status : string;            (* "Status" *)
  payout_date : datetime;     (* "Date" *)
  payout_client_id : string   (* "Client ID" *)
}.

(* ===================================================================== *)
(** ** Demo data generation *)
(* ===================================================================== *)

Module Generate.

Import Random.
Import PyRound.
Local Open Scope rand_scope.
Local Open Scope float_scope.

Section WithSource.

Context {R : Source}.

Definition first_names : list string :=
  ["Alexander"; "Samantha"; "Michael"; "Jennifer"; "Christopher"; "Ashley";
   "Matthew"; "Jessica"; "Andrew"; "Sarah"; "Joshua"; "Amanda"; "Daniel";
   "Melissa"; "David"; "Nicole"; "James"; "Elizabeth"; "Robert"; "Stephanie"].

Definition last_names : list string :=
  ["Johnson"; "Williams"; "Brown"; "Jones"; "Garcia"; "Miller"; "Davis";
   "Rodriguez"; "Martinez"; "Hernandez"; "Lopez"; "Gonzalez"; "Wilson";
   "Anderson"; "Thomas"; "Taylor"; "Moore"; "Jackson"; "Martin"; "Lee"].

Definition domains : list string :=
  ["gmail.com"; "yahoo.com"; "outlook.com"; "hotmail.com"; "aol.com"].

(** [round(random.uniform(0, upper), 2) if random.random() > p else 0]:
    the condition is evaluated first, the amount is drawn only when it
    holds. *)
Definition sent_amount (upper p : float) : M float :=
  r <- random ;;
  if p <? r then (x <- uniform 0 upper ;; ret (round2 x)) else ret 0.

(** The body of the loop of [generate_demo_clients], for index [i].  The
    script reads the clock once for each of the two dates of a row; the
    model takes both readings to fall on the day [now]. *)
Definition demo_client (now : datetime) (i : Z) : M client :=
  first_name <- choice "" first_names ;;
  last_name <- choice "" last_names ;;
  cash_app <- sent_amount 1000 0.3 ;;
  zelle <- sent_amount 800 0.4 ;;
  paypal <- sent_amount 1200 0.2 ;;
  bank <- sent_amount 2000 0.6 ;;
  let total := cash_app + zelle + paypal + bank in
  x <- uniform 500 5000 ;;
  let max_bal := round2 x in
  noise <- uniform (-200) 500 ;;
  let current := round2 (max_bal - total + noise) in
  is_verified <- choice true [true; false] ;;
  pstatus <- choice "" ["Confirmed"; "Pending"; "Processing"]%string ;;
  suffix <- randint 1 99 ;;
  domain <- choice "" domains ;;
  last_days <- randint 0 30 ;;
  join_days <- randint 30 365 ;;
  ret {| client_id := "DD-" ++ PyStr.format_0d 4 (1000 + i);
         name := first_name ++ " " ++ last_name;
         email := PyStr.lower first_name ++ "." ++ PyStr.lower last_name
                  ++ PyStr.str suffix ++ "@" ++ domain;
         verified := if is_verified then "✅ Verified" else "❌ Unverified";
         max_balance := max_bal;
         current_balance := PyFloat.max current 0;
         cash_app_sent := cash_app;
         zelle_sent := zelle;
         paypal_sent := paypal;
         bank_transfer := bank;
         total_sent := total;
         payout_status := pstatus;
         last_activity := (day now - last_days)%Z;
         join_date := (day now - join_days)%Z |}.

(** [generate_demo_clients(num_clients)]: the generator is re-seeded
    with 42 before the loop, whatever its state was. *)
Definition generate_demo_clients (num_clients : Z) (now : datetime)
  : M (list client) :=
  fun _ => for_each (demo_client now) (range num_clients) (seed 42).

(** The loop of [generate_daily_logs] over the day indices [days] still
    to come, [total_cumulative] being the running total so far. *)
Fixpoint daily_logs_from (num_days : Z) (now : datetime)
    (days : list Z) (total_cumulative : float) : M (list log_entry) :=
  match days with
  | [] => ret []
  | d :: rest =>
      a <- uniform 200 1500 ;;
      let cash_app_daily := round2 a in
      b <- uniform 150 1200 ;;
      let zelle_daily := round2 b in
      c <- uniform 300 2000 ;;
      let paypal_daily := round2 c in
      e <- uniform 100 800 ;;
      let bank_daily := round2 e in
      let total := cash_app_daily + zelle_daily + paypal_daily + bank_daily in
      let total_cumulative := total_cumulative + total in
      n <- randint 5 25 ;;
      let entry :=
        {| log_date := (day now - (num_days - d - 1))%Z;
           log_cash_app := cash_app_daily;
           log_zelle := zelle_daily;
           log_paypal := paypal_daily;
           log_bank_transfer := bank_daily;
           daily_total := total;
           cumulative_total := total_cumulative;
           transactions := n |} in
      logs <- daily_logs_from num_days now rest total_cumulative ;;
      ret (entry :: logs)
  end.

(** [generate_daily_logs(num_days)]. *)
Definition generate_daily_logs (num_days : Z) (now : datetime)
  : M (list log_entry) :=
  daily_logs_from num_days now (range num_days) 0.

(** The body of the loop of [generate_payout_confirmations]. *)
Definition payout_confirmation (now : datetime) (i : Z) : M payout :=
  k <- randint 10000 99999 ;;
  x <- uniform 50 2000 ;;
  m <- choice "" ["Cash App"; "Zelle"; "PayPal"; "Bank Transfer"]%string ;;
  st <- choice "" ["Completed"; "Processing"; "Failed"]%string ;;
  ago <- randint 0 14 ;;
  c <- randint 1000 1019 ;;
  ret {| confirmation_id := "PAY-" ++ PyStr.str k;
         amount := round2 x;
         method := m;
         status := st;
         payout_date := {| day := (day now - ago)%Z; minute := minute now |};
         payout_client_id := "DD-" ++ PyStr.format_0d 4 c |}.

(** [generate_payout_confirmations()]. *)
Definition generate_payout_confirmations (now : datetime) : M (list payout) :=
  for_each (payout_confirmation now) (range 15).

(** The numbers drawn for the confirmation identifiers by one call of
    [generate_payout_confirmations]: the same loop, keeping only the
    first draw of each round. *)
Definition confirmation_numbers (now : datetime) : M (list Z) :=
  for_each (fun i =>
              k <- randint 10000 99999 ;;
              _ <- uniform 50 2000 ;;
              _ <- choice "" ["Cash App"; "Zelle"; "PayPal"; "Bank Transfer"]%string ;;
              _ <- choice "" ["Completed"; "Processing"; "Failed"]%string ;;
              _ <- randint 0 14 ;;
              _ <- randint 1000 1019 ;;
              ret k)
           (range 15).

End WithSource.

End Generate.

(* ===================================================================== *)
(** ** Column reductions of pandas *)
(* ===================================================================== *)

Module Pandas.

Local Open Scope float_scope.

(** Missing values (NaN) are replaced by 0 before a column is added up. *)
Definition fill_zero (x : float) : float := if is_nan x then 0 else x.

(** [Series.sum()] of a float column: 0 for an empty column, otherwise
    the filled values added up from the first row on (numpy may group the
    additions of a long column differently; the rows added are the same). *)
Definition series_sum (col : list float) : float :=
  match map fill_zero col with
  | [] => 0
  | x :: xs => fold_left PrimFloat.add xs x
  end.

(** The values of a column that are not missing. *)
Definition dropna (col : list float) : list float :=
  filter (fun x => negb (is_nan x)) col.

(** [Series.mean()]: the sum over the number of values that are not
    missing, and NaN when there is none. *)
Definition series_mean (col : list float) : float :=
  let count := Z.of_nat (List.length (dropna col)) in
  if (0 <? count)%Z then series_sum col / PyFloat.of_int count else nan.

(** [Series.max()]: the largest value that is not missing, and NaN when
    there is none. *)
Definition series_max (col : list float) : float :=
  match dropna col with
  | [] => nan
  | x :: xs => fold_left (fun a b => if a <? b then b else a) xs x
  end.

End Pandas.

(* ===================================================================== *)
(** ** The page *)
(* ===================================================================== *)

Module App.

Import Pandas.
Local Open Scope float_scope.

(** What the widgets of one run of the script return. *)
Record widgets : Type := {
  verification_filter : string;     (* selectbox "Verification Status" *)
  payout_filter : string;           (* selectbox "Payout Status" *)
  balance_range : Z * Z;            (* slider "Current Balance Range" *)
  date_range : list Z;              (* date_input "Select Date Range" *)
  search_term : string;             (* text_input of the client table *)
  payout_status_filter : string     (* selectbox "Filter by Status" *)
}.

(** The datasets held in [st.session_state]. *)
Record session : Type := {
  client_data : list client;
  daily_logs : list log_entry;
  payout_confirmations : list payout
}.

(** [len(df)]. *)
Definition len {A : Type} (df : list A) : Z := Z.of_nat (List.length df).

(** The value the slider starts from: [(0, int(client_df["Current
    Balance"].max()))].  [int] raises when the maximum is NaN (an empty
    registry) or infinite. *)
Definition default_balance_range (client_df : list client) : option (Z * Z) :=
  match PyFloat.to_int (series_max (map current_balance client_df)) with
  | Some hi => Some (0%Z, hi)
  | None => None
  end.

(** Lines 219-230: the sidebar filters, one after the other. *)
Definition sidebar_filter (w : widgets) (client_df : list client) : list client :=
  let filtered_df := client_df in
  let filtered_df :=
    if negb (verification_filter w =? "All")%string
    then filter (fun r => (verified r =? verification_filter w)%string) filtered_df
    else filtered_df in
  let filtered_df :=
    if negb (payout_filter w =? "All")%string
    then filter (fun r => (payout_status r =? payout_filter w)%string) filtered_df
    else filtered_df in
  filter (fun r =>
            (PyFloat.of_int (fst (balance_range w)) <=? current_balance r)
            && (current_balance r <=? PyFloat.of_int (snd (balance_range w))))
         filtered_df.

(** Lines 285-289: the search box of the client table.  [None] when the
    term is a pattern outside the modelled fragment of [re]. *)
Definition search_filter (w : widgets) (filtered_df : list client)
  : option (list client) :=
  if (search_term w =? "")%string then Some filtered_df
  else
    match PyStr.compile (search_term w) with
    | Some re =>
        Some (filter (fun r => PyStr.search re (name r) || PyStr.search re (email r))
                     filtered_df)
    | None => None
    end.

(** The rows of the client table and of the export: the sidebar filters,
    then the search box. *)
Definition clients_filter (w : widgets) (client_df : list client)
  : option (list client) :=
  search_filter w (sidebar_filter w client_df).

(** Lines 330-337: the date filter of the ledger. *)
Definition logs_filter (w : widgets) (logs_df : list log_entry) : list log_entry :=
  match date_range w with
  | [start_date; end_date] =>
      filter (fun e => (start_date <=? log_date e)%Z && (log_date e <=? end_date)%Z)
             logs_df
  | _ => logs_df
  end.

(** Lines 439-441: the status filter of the payout table. *)
Definition payouts_filter (w : widgets) (payouts_df : list payout) : list payout :=
  let filtered_payouts := payouts_df in
  if negb (payout_status_filter w =? "All")%string
  then filter (fun p => (status p =? payout_status_filter w)%string) filtered_payouts
  else filtered_payouts.

(** The [delta] of an average: [f"${x:,.2f} avg"] or the text ["N/A"]. *)
Inductive delta : Type :=
| Avg (x : float)
| NotApplicable.

(** Everything one run of the script puts on the page (numbers are kept
    as numbers, before they are formatted). *)
Record page : Type := {
  (* key metrics row, lines 235-275 *)
  shown_total_clients : Z;
  shown_total_clients_delta : Z;
  shown_total_sent : float;
  shown_total_sent_delta : delta;
  shown_total_balance : float;
  shown_total_balance_delta : delta;
  shown_verification_rate : float;
  shown_verified_delta : Z * Z;
  shown_confirmed_payouts : Z;
  shown_confirmed_payouts_delta : Z;
  (* client table and export, lines 279-322 *)
  client_table : list client;
  (* ledger tabs, lines 326-418 *)
  logs_table : list log_entry;
  shown_days_tracked : Z;
  shown_avg_daily : float;
  shown_total_period : float;
  shown_cash_app : float;
  shown_zelle : float;
  shown_paypal : float;
  shown_bank_transfer : float;
  (* payouts, lines 422-476 *)
  payouts_table : list payout;
  shown_completed_amount : float;
  shown_processing_count : Z;
  shown_failed_count : Z;
  (* sidebar quick stats, lines 491-493 *)
  shown_sidebar_total_clients : Z;
  shown_hidden : Z
}.

(** [a / b] on two Python integers: [ZeroDivisionError] ([None]) when
    [b] is 0. *)
Definition int_truediv (a b : Z) : option float :=
  if (b =? 0)%Z then None else Some (PyFloat.of_int a / PyFloat.of_int b).

(** [(verified_count / len(filtered_df) * 100) if len(filtered_df) > 0
    else 0]. *)
Definition verification_rate_of (verified_count n : Z) : option float :=
  if (0 <? n)%Z then
    match int_truediv verified_count n with
    | Some q => Some (q * 100)
    | None => None
    end
  else Some 0.

(** [f"${total/len(filtered_df):,.2f} avg" if len(filtered_df) > 0 else
    "N/A"]; [total] is a numpy float, its division does not raise. *)
Definition avg_delta (total : float) (n : Z) : delta :=
  if (0 <? n)%Z then Avg (total / PyFloat.of_int n) else NotApplicable.

(** One run of the script from "Load Data" on.  [None] when the run
    stops on an exception (or on a search pattern outside the model). *)
Definition app (s : session) (w : widgets) : option page :=
  let client_df := client_data s in
  let logs_df := daily_logs s in
  let payouts_df := payout_confirmations s in
  match default_balance_range client_df with
  | None => None
  | Some _ =>
      let filtered_df := sidebar_filter w client_df in
      (* key metrics row *)
      let total := series_sum (map total_sent filtered_df) in
      let balance := series_sum (map current_balance filtered_df) in
      let verified_count :=
        len (filter (fun r => (verified r =? "✅ Verified")%string) filtered_df) in
      match verification_rate_of verified_count (len filtered_df) with
      | None => None
      | Some rate =>
          let confirmed :=
            len (filter (fun p => (status p =? "Completed")%string) payouts_df) in
          let metrics_len := len filtered_df in
          (* client table *)
          match search_filter w filtered_df with
          | None => None
          | Some filtered_df =>
              let logs_filtered := logs_filter w logs_df in
              let filtered_payouts := payouts_filter w payouts_df in
              Some {|
                shown_total_clients := metrics_len;
                shown_total_clients_delta :=
                  (metrics_len - len client_df + metrics_len)%Z;
                shown_total_sent := total;
                shown_total_sent_delta := avg_delta total metrics_len;
                shown_total_balance := balance;
                shown_total_balance_delta := avg_delta balance metrics_len;
                shown_verification_rate := rate;
                shown_verified_delta := (verified_count, metrics_len);
                shown_confirmed_payouts := confirmed;
                shown_confirmed_payouts_delta := len payouts_df;
                client_table := filtered_df;
                logs_table := logs_filtered;
                shown_days_tracked := len logs_filtered;
                shown_avg_daily := series_mean (map daily_total logs_filtered);
                shown_total_period := series_sum (map daily_total logs_filtered);
                shown_cash_app := series_sum (map log_cash_app logs_filtered);
                shown_zelle := series_sum (map log_zelle logs_filtered);
                shown_paypal := series_sum (map log_paypal logs_filtered);
                shown_bank_transfer :=
                  series_sum (map log_bank_transfer logs_filtered);
                payouts_table := filtered_payouts;
                shown_completed_amount :=
                  series_sum
                    (map amount
                       (filter (fun p => (status p =? "Completed")%string)
                               payouts_df));
                shown_processing_count :=
                  len (filter (fun p => (status p =? "Processing")%string)
                              payouts_df);
                shown_failed_count :=
                  len (filter (fun p => (status p =? "Failed")%string)
                              payouts_df);
                shown_sidebar_total_clients := len client_df;
                shown_hidden := (len client_df - len filtered_df)%Z
              |}
          end
      end
  end.

End App.

(* ===================================================================== *)
(** ** The predicates of the specification *)
(* ===================================================================== *)

Module Spec.

Import App.
Local Open Scope float_scope.

(** "verification-status equals the selected value or the selection is
    All". *)
Definition verification_ok (w : widgets) (r : client) : bool :=
  (verification_filter w =? "All")%string
  || (verified r =? verification_filter w)%string.

(** "payout-status equals the selected value or All". *)
Definition payout_ok (w : widgets) (r : client) : bool :=
  (payout_filter w =? "All")%string
  || (payout_status r =? payout_filter w)%string.

(** "current-balance lies within the inclusive [min, max] range". *)
Definition balance_ok (w : widgets) (r : client) : bool :=
  (PyFloat.of_int (fst (balance_range w)) <=? current_balance r)
  && (current_balance r <=? PyFloat.of_int (snd (balance_range w))).

(** The three predicates of the sidebar together. *)
Definition sidebar_ok (w : widgets) (r : client) : bool :=
  verification_ok w r && payout_ok w r && balance_ok w r.

(** "name or email contains the search substring case-insensitively, or
    the search term is empty". *)
Definition search_ok (w : widgets) (r : client) : bool :=
  (search_term w =? "")%string
  || PyStr.contains_ignoring_case (search_term w) (name r)
  || PyStr.contains_ignoring_case (search_term w) (email r).

(** The search box as the code has it: the term is a pattern. *)
Definition pattern_ok (re : list PyStr.atom) (r : client) : bool :=
  PyStr.search re (name r) || PyStr.search re (email r).

(** The search box as one predicate on rows, for a term the model covers:
    every row passes an empty term. *)
Definition pattern_pass (w : widgets) (r : client) : bool :=
  (search_term w =? "")%string
  || match PyStr.compile (search_term w) with
     | Some re => pattern_ok re r
     | None => false
     end.

(** "date within inclusive [start, end] range". *)
Definition date_ok (start_date end_date : Z) (e : log_entry) : bool :=
  ((start_date <=? log_date e) && (log_date e <=? end_date))%Z.

(** "status equals selected value or All". *)
Definition status_ok (w : widgets) (p : payout) : bool :=
  (payout_status_filter w =? "All")%string
  || (status p =? payout_status_filter w)%string.

Definition has_status (st : string) (p : payout) : bool :=
  (status p =? st)%string.

Definition is_verified (r : client) : bool :=
  (verified r =? "✅ Verified")%string.

(** A term in which every character is an ordinary ASCII character. *)
Fixpoint plain (t : string) : bool :=
  match t with
  | EmptyString => true
  | String c t' => PyStr.is_ascii c && negb (PyStr.is_special c) && plain t'
  end.

End Spec.

(* ===================================================================== *)
(** ** Recorded draws and sample data *)
(* ===================================================================== *)

Module Sample.

Import Random.
Local Open Scope float_scope.

(** A generator that replays recorded raw draws: [random()] turns a draw
    [k] into [k / 2^53] and [_randbelow(n)] into [k mod n]; an exhausted
    record keeps answering 0.  [seeded] is the record the generator is
    left with by [seed]. *)
Definition pop (s : list Z) : Z * list Z :=
  match s with
  | [] => (0%Z, [])
  | k :: s' => (k, s')
  end.

Definition replay (seeded : list Z) : Source :=
  {| state := list Z;
     seed := fun _ => seeded;
     random := fun s =>
       let (k, s') := pop s in
       (PyFloat.of_int (k mod 2 ^ 53) / PyFloat.of_int (2 ^ 53), s');
     randbelow := fun n s =>
       let (k, s') := pop s in ((k mod n)%Z, s') |}.

Definition now : datetime := {| day := 739925; minute := 600 |}.

Definition half : Z := (2 ^ 52)%Z.   (* the draw read as 0.5 *)
Definition most : Z := (2 ^ 53 - 2 ^ 43)%Z.   (* the draw read as 1 - 2^-10 *)

(** Draws for two clients: the first sends on every channel and overdraws
    the account, the second sends nothing. *)
Definition client_draws : list Z :=
  [ 0; 0;                        (* Alexander Johnson *)
    most; most; most; most; most; most; most; most;
    0; 0;                        (* max balance 500, noise -200 *)
    0; 0; 4; 0; 3; 40;
    1; 1;                        (* Samantha Williams *)
    0; 0; 0; 0;
    half; half;                  (* max balance 2750, noise 150 *)
    1; 1; 16; 1; 7; 100 ]%Z.

Definition clients : list client :=
  fst (@Generate.generate_demo_clients (replay client_draws) 2 now []).

(** Draws for a three-day ledger. *)
Definition ledger_draws : list Z :=
  [ 0; 0; 0; 0; 3;
    half; half; half; half; 9;
    most; most; most; most; 20 ]%Z.

Definition ledger : list log_entry :=
  fst (@Generate.generate_daily_logs (replay []) 3 now ledger_draws).

(** Draws in which the first two confirmation numbers coincide. *)
Definition payout_draws : list Z :=
  [ 2345; half; 0; 0; 1; 3;
    2345; 0; 1; 2; 2; 4 ]%Z.

Definition journal : list payout :=
  fst (@Generate.generate_payout_confirmations (replay []) now payout_draws).

(** A hand-written registry of three clients. *)
Definition alexander : client :=
  {| client_id := "DD-1000";
     name := "Alexander Johnson";
     email := "alexander.johnson5@gmail.com";
     verified := "✅ Verified";
     max_balance := 2500;
     current_balance := 1200.5;
     cash_app_sent := 100; zelle_sent := 200;
     paypal_sent := 300; bank_transfer := 400;
     total_sent := 1000;
     payout_status := "Confirmed";
     last_activity := 739920; join_date := 739700 |}.

Definition samantha : client :=
  {| client_id := "DD-1001";
     name := "Samantha Lee";
     email := "samantha.lee17@yahoo.com";
     verified := "❌ Unverified";
     max_balance := 5000;
     current_balance := 4321.57;
     cash_app_sent := 50; zelle_sent := 0;
     paypal_sent := 25; bank_transfer := 0;
     total_sent := 75;
     payout_status := "Pending";
     last_activity := 739924; join_date := 739800 |}.

Definition michael : client :=
  {| client_id := "DD-1002";
     name := "Michael Brown";
     email := "michael.brown3@aol.com";
     verified := "✅ Verified";
     max_balance := 900;
     current_balance := 80.25;
     cash_app_sent := 0; zelle_sent := 0;
     paypal_sent := 0; bank_transfer := 1500;
     total_sent := 1500;
     payout_status := "Processing";
     last_activity := 739900; join_date := 739600 |}.

Definition registry : list client := [alexander; samantha; michael].

Definition entry (d : Z) (a b c e cum : float) (n : Z) : log_entry :=
  {| log_date := d;
     log_cash_app := a; log_zelle := b; log_paypal := c;
     log_bank_transfer := e;
     daily_total := a + b + c + e;
     cumulative_total := cum;
     transactions := n |}.

Definition some_logs : list log_entry :=
  [ entry 739923 200 150 300 100 750 5;
    entry 739924 400 250 500 200 2100 12;
    entry 739925 300 200 400 150 3150 8 ].

Definition pay (k : string) (x : float) (m st : string) : payout :=
  {| confirmation_id := k; amount := x; method := m; status := st;
     payout_date := now; payout_client_id := "DD-1000" |}.

Definition some_payouts : list payout :=
  [ pay "PAY-10001" 100 "Zelle" "Completed";
    pay "PAY-10002" 250.5 "PayPal" "Processing";
    pay "PAY-10003" 75 "Cash App" "Failed";
    pay "PAY-10004" 40 "Zelle" "Completed" ].

Definition data : App.session :=
  {| App.client_data := registry;
     App.daily_logs := some_logs;
     App.payout_confirmations := some_payouts |}.

(** Every widget at the value it starts from, the date range covering
    the last two days. *)
Definition untouched : App.widgets :=
  {| App.verification_filter := "All";
     App.payout_filter := "All";
     App.balance_range := (0, 4321)%Z;
     App.date_range := [739924; 739925]%Z;
     App.search_term := "";
     App.payout_status_filter := "All" |}.

(** The selection "Unverified" under the starting balance range, and a date
    range before the ledger begins. *)
Definition nothing_left : App.widgets :=
  {| App.verification_filter := "❌ Unverified";
     App.payout_filter := "All";
     App.balance_range := (0, 4321)%Z;
     App.date_range := [739000; 739001]%Z;
     App.search_term := "";
     App.payout_status_filter := "All" |}.

Definition with_search (t : string) (w : App.widgets) : App.widgets :=
  {| App.verification_filter := App.verification_filter w;
     App.payout_filter := App.payout_filter w;
     App.balance_range := App.balance_range w;
     App.date_range := App.date_range w;
     App.search_term := t;
     App.payout_status_filter := App.payout_status_filter w |}.

Definition with_payout_status (t : string) (w : App.widgets) : App.widgets :=
  {| App.verification_filter := App.verification_filter w;
     App.payout_filter := App.payout_filter w;
     App.balance_range := App.balance_range w;
     App.date_range := App.date_range w;
     App.search_term := App.search_term w;
     App.payout_status_filter := t |}.

Definition with_date_range (d : list Z) (w : App.widgets) : App.widgets :=
  {| App.verification_filter := App.verification_filter w;
     App.payout_filter := App.payout_filter w;
     App.balance_range := App.balance_range w;
     App.date_range := d;
     App.search_term := App.search_term w;
     App.payout_status_filter := App.payout_status_filter w |}.

End Sample.

(* ===================================================================== *)
(** ** The rest of the script: session state, caching, buttons, styles *)
(* ===================================================================== *)

Module Script.

Import Random Generate App.

(** What [_randbelow(n)] promises for [n > 0]: a number in [range(n)]. *)
Definition draws_in_range (R : Source) : Prop :=
  forall n s, (0 < n)%Z -> (0 <= fst (randbelow n s) < n)%Z.

(** [int(s)] on a string of decimal digits (leading zeros allowed). *)
Definition int_of_digits (s : string) : option Z :=
  option_map (fun d => Z.of_N (N.of_uint d)) (NilEmpty.uint_of_string s).

(** A pattern atom with its literal in lower case. *)
Definition lower_atom (a : PyStr.atom) : PyStr.atom :=
  match a with
  | PyStr.Lit c => PyStr.Lit (PyStr.lower_char c)
  | PyStr.AnyChar => PyStr.AnyChar
  end.

(** Lines 447-454: the style of a cell of the "Status" column. *)
Definition highlight_status (val : string) : string :=
  if PyStr.has_substring "Completed" val
  then "background-color: #d4edda; color: #155724"
  else if PyStr.has_substring "Processing" val
  then "background-color: #fff3cd; color: #856404"
  else if PyStr.has_substring "Failed" val
  then "background-color: #f8d7da; color: #721c24"
  else "".


(** A selectbox set to another option. *)
Definition select_verification (v : string) (w : widgets) : widgets :=
  {| verification_filter := v;
     payout_filter := payout_filter w;
     balance_range := balance_range w;
     date_range := date_range w;
     search_term := search_term w;
     payout_status_filter := payout_status_filter w |}.

Definition select_payout (v : string) (w : widgets) : widgets :=
  {| verification_filter := verification_filter w;
     payout_filter := v;
     balance_range := balance_range w;
     date_range := date_range w;
     search_term := search_term w;
     payout_status_filter := payout_status_filter w |}.

Definition select_payout_status (v : string) (w : widgets) : widgets :=
  {| verification_filter := verification_filter w;
     payout_filter := payout_filter w;
     balance_range := balance_range w;
     date_range := date_range w;
     search_term := search_term w;
     payout_status_filter := v |}.

Definition type_search (t : string) (w : widgets) : widgets :=
  {| verification_filter := verification_filter w;
     payout_filter := payout_filter w;
     balance_range := balance_range w;
     date_range := date_range w;
     search_term := t;
     payout_status_filter := payout_status_filter w |}.


Section WithSource.

Context {R : Source}.

(** What lives as long as the server process: the state of the [random]
    module and what [st.cache_data] has stored for the three generators
    (every call in the script passes no argument, so each has one entry). *)
Record process : Type := {
  rng : state;
  cache_clients : option (list client);
  cache_logs : option (list log_entry);
  cache_payouts : option (list payout)
}.

(** A process that has just started, its generator in state [s]. *)
Definition fresh_process (s : state) : process :=
  {| rng := s; cache_clients := None; cache_logs := None;
     cache_payouts := None |}.

(** [st.session_state] of one browser session: a key is missing until the
    script stores under it. *)
Record session_state : Type := {
  ss_client_data : option (list client);
  ss_daily_logs : option (list log_entry);
  ss_payout_confirmations : option (list payout)
}.

Definition new_session : session_state :=
  {| ss_client_data := None; ss_daily_logs := None;
     ss_payout_confirmations := None |}.

(** The three generators behind [@st.cache_data]: a stored result is
    returned without running the body; otherwise the body runs (with its
    default arguments) and its result is stored. *)
Definition cached_demo_clients (now : datetime) (p : process)
  : list client * process :=
  match cache_clients p with
  | Some df => (df, p)
  | None =>
      let (df, s') := generate_demo_clients 20 now (rng p) in
      (df, {| rng := s'; cache_clients := Some df;
              cache_logs := cache_logs p; cache_payouts := cache_payouts p |})
  end.

Definition cached_daily_logs (now : datetime) (p : process)
  : list log_entry * process :=
  match cache_logs p with
  | Some df => (df, p)
  | None =>
      let (df, s') := generate_daily_logs 30 now (rng p) in
      (df, {| rng := s'; cache_clients := cache_clients p;
              cache_logs := Some df; cache_payouts := cache_payouts p |})
  end.

Definition cached_payout_confirmations (now : datetime) (p : process)
  : list payout * process :=
  match cache_payouts p with
  | Some df => (df, p)
  | None =>
      let (df, s') := generate_payout_confirmations now (rng p) in
      (df, {| rng := s'; cache_clients := cache_clients p;
              cache_logs := cache_logs p; cache_payouts := Some df |})
  end.

(** Lines 174-179: each dataset is generated only when its key is missing
    from the session state. *)
Definition load_data (now : datetime) (ss : session_state) (p : process)
  : session_state * process :=
  let (clients, p) :=
    match ss_client_data ss with
    | Some df => (df, p)
    | None => cached_demo_clients now p
    end in
  let (logs, p) :=
    match ss_daily_logs ss with
    | Some df => (df, p)
    | None => cached_daily_logs now p
    end in
  let (payouts, p) :=
    match ss_payout_confirmations ss with
    | Some df => (df, p)
    | None => cached_payout_confirmations now p
    end in
  ({| ss_client_data := Some clients; ss_daily_logs := Some logs;
      ss_payout_confirmations := Some payouts |}, p).

(** Lines 434-436: the button "Refresh Payouts". *)
Definition refresh_payouts (now : datetime) (ss : session_state) (p : process)
  : session_state * process :=
  let (payouts, p) := cached_payout_confirmations now p in
  ({| ss_client_data := ss_client_data ss; ss_daily_logs := ss_daily_logs ss;
      ss_payout_confirmations := Some payouts |}, p).

(** Lines 498-502: the button "Refresh All Data". *)
Definition refresh_all (now : datetime) (ss : session_state) (p : process)
  : session_state * process :=
  let (clients, p) := cached_demo_clients now p in
  let (logs, p) := cached_daily_logs now p in
  let (payouts, p) := cached_payout_confirmations now p in
  ({| ss_client_data := Some clients; ss_daily_logs := Some logs;
      ss_payout_confirmations := Some payouts |}, p).

(** Lines 181-183: the three frames the rest of the script reads. *)
Definition frames (ss : session_state) : option session :=
  match ss_client_data ss, ss_daily_logs ss, ss_payout_confirmations ss with
  | Some c, Some l, Some p =>
      Some {| client_data := c; daily_logs := l; payout_confirmations := p |}
  | _, _, _ => None
  end.

End WithSource.

End Script.

(* ===================================================================== *)
(** ** One run of the script, section by section *)
(* ===================================================================== *)

Module Run.

Import App Pandas.
Local Open Scope float_scope.

(** The [re] module as the search box uses it:
    [re.compile(pat, re.IGNORECASE)] either raises ([None]) or gives a
    compiled pattern, and [search] says whether the pattern matches
    somewhere in a text.  Nothing more is assumed of it, so what is proved
    for every [Regex] holds for every search term. *)
Class Regex : Type := {
  pattern : Type;
  re_compile : string -> option pattern;
  re_search : pattern -> string -> bool
}.

(** The patterns of [PyStr.compile]: ASCII, the dot the only special
    character.  It refuses every other pattern. *)
Definition fragment : Regex :=
  {| pattern := list PyStr.atom;
     re_compile := PyStr.compile;
     re_search := PyStr.search |}.

(** [st.sidebar.slider(min_value=0, max_value=m, value=(0, m), step=100)]
    raises unless [0 < m] (the bounds must differ) and [m] is at most the
    largest integer the browser represents exactly, [2^53 - 1]. *)
Definition slider_accepts (m : Z) : bool :=
  ((0 <? m) && (m <=? 2 ^ 53 - 1))%Z.

(** Lines 202-208: computing the bounds and creating the slider. *)
Definition slider_setup (client_df : list client) : option (Z * Z) :=
  match default_balance_range client_df with
  | Some (lo, hi) => if slider_accepts hi then Some (lo, hi) else None
  | None => None
  end.

(** The key metrics row, lines 235-275. *)
Record key_metrics : Type := {
  km_total_clients : Z;
  km_total_clients_delta : Z;
  km_total_sent : float;
  km_total_sent_delta : delta;
  km_total_balance : float;
  km_total_balance_delta : delta;
  km_verification_rate : float;
  km_verified_delta : Z * Z;
  km_confirmed_payouts : Z;
  km_confirmed_payouts_delta : Z
}.

(** Lines 235-275, on the frame left by the sidebar filters.  [None]
    stands for a [ZeroDivisionError] in the verification rate. *)
Definition key_metrics_row (client_df filtered_df : list client)
    (payouts_df : list payout) : option key_metrics :=
  let total := series_sum (map total_sent filtered_df) in
  let balance := series_sum (map current_balance filtered_df) in
  let verified_count :=
    len (filter (fun r => (verified r =? "✅ Verified")%string) filtered_df) in
  match verification_rate_of verified_count (len filtered_df) with
  | None => None
  | Some rate =>
      Some {| km_total_clients := len filtered_df;
              km_total_clients_delta :=
                (len filtered_df - len client_df + len filtered_df)%Z;
              km_total_sent := total;
              km_total_sent_delta := avg_delta total (len filtered_df);
              km_total_balance := balance;
              km_total_balance_delta := avg_delta balance (len filtered_df);
              km_verification_rate := rate;
              km_verified_delta := (verified_count, len filtered_df);
              km_confirmed_payouts :=
                len (filter (fun p => (status p =? "Completed")%string)
                            payouts_df);
              km_confirmed_payouts_delta := len payouts_df |}
  end.

(** Lines 285-289, with whatever [re] does with the term.  [None] when
    [re.compile] raises. *)
Definition search_box {E : Regex} (w : widgets) (filtered_df : list client)
  : option (list client) :=
  if (search_term w =? "")%string then Some filtered_df
  else
    match re_compile (search_term w) with
    | Some pat =>
        Some (filter (fun r => re_search pat (name r) || re_search pat (email r))
                     filtered_df)
    | None => None
    end.

(** The page once every section has been rendered. *)
Definition full_page (m : key_metrics) (client_df view : list client)
    (logs_filtered : list log_entry) (payouts_df filtered_payouts : list payout)
  : page :=
  {| shown_total_clients := km_total_clients m;
     shown_total_clients_delta := km_total_clients_delta m;
     shown_total_sent := km_total_sent m;
     shown_total_sent_delta := km_total_sent_delta m;
     shown_total_balance := km_total_balance m;
     shown_total_balance_delta := km_total_balance_delta m;
     shown_verification_rate := km_verification_rate m;
     shown_verified_delta := km_verified_delta m;
     shown_confirmed_payouts := km_confirmed_payouts m;
     shown_confirmed_payouts_delta := km_confirmed_payouts_delta m;
     client_table := view;
     logs_table := logs_filtered;
     shown_days_tracked := len logs_filtered;
     shown_avg_daily := series_mean (map daily_total logs_filtered);
     shown_total_period := series_sum (map daily_total logs_filtered);
     shown_cash_app := series_sum (map log_cash_app logs_filtered);
     shown_zelle := series_sum (map log_zelle logs_filtered);
     shown_paypal := series_sum (map log_paypal logs_filtered);
     shown_bank_transfer := series_sum (map log_bank_transfer logs_filtered);
     payouts_table := filtered_payouts;
     shown_completed_amount :=
       series_sum
         (map amount
            (filter (fun p => (status p =? "Completed")%string) payouts_df));
     shown_processing_count :=
       len (filter (fun p => (status p =? "Processing")%string) payouts_df);
     shown_failed_count :=
       len (filter (fun p => (status p =? "Failed")%string) payouts_df);
     shown_sidebar_total_clients := len client_df;
     shown_hidden := (len client_df - len view)%Z |}.

(** How far one run of the script gets. *)
Inductive rendering : Type :=
| StoppedAtSlider                       (* an exception before any metric *)
| StoppedAtSearch (m : key_metrics)     (* the metrics row, then [re.error] *)
| Completed (pg : page).                (* every section *)

(** One run of the script from "Load Data" on, in the order of the
    file: the sidebar, the sidebar filters, the key metrics row, the search
    box and the client table, the ledger tabs, the payouts, the sidebar
    statistics. *)
Definition script {E : Regex} (s : session) (w : widgets) : rendering :=
  let client_df := client_data s in
  let logs_df := daily_logs s in
  let payouts_df := payout_confirmations s in
  match slider_setup client_df with
  | None => StoppedAtSlider
  | Some _ =>
      let filtered_df := sidebar_filter w client_df in
      match key_metrics_row client_df filtered_df payouts_df with
      | None => StoppedAtSlider
      | Some m =>
          match search_box w filtered_df with
          | None => StoppedAtSearch m
          | Some view =>
              Completed (full_page m client_df view (logs_filter w logs_df)
                           payouts_df (payouts_filter w payouts_df))
          end
      end
  end.

(** The key metrics row of a page. *)
Definition metrics_of (pg : page) : key_metrics :=
  {| km_total_clients := shown_total_clients pg;
     km_total_clients_delta := shown_total_clients_delta pg;
     km_total_sent := shown_total_sent pg;
     km_total_sent_delta := shown_total_sent_delta pg;
     km_total_balance := shown_total_balance pg;
     km_total_balance_delta := shown_total_balance_delta pg;
     km_verification_rate := shown_verification_rate pg;
     km_verified_delta := shown_verified_delta pg;
     km_confirmed_payouts := shown_confirmed_payouts pg;
     km_confirmed_payouts_delta := shown_confirmed_payouts_delta pg |}.

(** The key metrics row a run has rendered, if it got that far. *)
Definition metrics_shown (r : rendering) : option key_metrics :=
  match r with
  | StoppedAtSlider => None
  | StoppedAtSearch m => Some m
  | Completed pg => Some (metrics_of pg)
  end.

(** A text of ASCII characters only. *)
Fixpoint ascii_text (t : string) : bool :=
  match t with
  | EmptyString => true
  | String c t' => PyStr.is_ascii c && ascii_text t'
  end.

End Run.

(* ===================================================================== *)
(** * Properties *)
(* ===================================================================== *)

(** ** The Python model on a few values *)

Section ModelChecks.

Local Open Scope float_scope.

Example round2_values :
  map PyRound.round2 [4321.5678; 2.675; 0.125; 0.375; 1.005; -3.14159; 1e300]
  = [4321.57; 2.67; 0.12; 0.38; 1; -3.14; 1e300].
Proof. vm_compute. reflexivity. Qed.

Example to_int_values :
  map PyFloat.to_int [4321.57; -3.99; 0.5; 1e20; nan; infinity]
  = [Some 4321; Some (-3); Some 0; Some (10 ^ 20); None; None]%Z.
Proof. vm_compute. reflexivity. Qed.

Example of_int_values :
  map PyFloat.of_int [0; 4321; -3; 2 ^ 53 + 1]%Z
  = [0; 4321; -3; 9007199254740992].
Proof. vm_compute. reflexivity. Qed.

Example max_values :
  map (fun x => PyFloat.max x 0) [-12.5; 0; 7.25] = [0; 0; 7.25].
Proof. vm_compute. reflexivity. Qed.

Example format_values :
  (PyStr.format_0d 4 1007, PyStr.format_0d 4 7, PyStr.format_0d 4 12345,
   PyStr.str 99999, PyStr.lower "Alexander")
  = ("1007", "0007", "12345", "99999", "alexander")%string.
Proof. vm_compute. reflexivity. Qed.

Example search_values :
  (option_map (fun re => PyStr.search re "Alexander Johnson") (PyStr.compile "JOHN"),
   option_map (fun re => PyStr.search re "Alexander Johnson") (PyStr.compile "x.n"),
   option_map (fun re => PyStr.search re "Alexander Johnson") (PyStr.compile "smith"),
   PyStr.compile "(")
  = (Some true, Some true, Some false, None).
Proof. vm_compute. reflexivity. Qed.

Example series_values :
  (Pandas.series_sum [1.5; nan; 2.5], Pandas.series_sum [],
   Pandas.series_mean [1.5; nan; 2.5], Pandas.series_max [1.5; nan; 2.5])
  = (4, 0, 2, 2.5).
Proof. vm_compute. reflexivity. Qed.

End ModelChecks.

(** ** Floats: comparisons and the neutral zero *)

Section FloatFacts.

Local Open Scope float_scope.

Lemma SFcompare_antisym x y :
  SFcompare y x = option_map CompOpp (SFcompare x y).
Proof.
  destruct x as [s1|s1| |s1 m1 e1], y as [s2|s2| |s2 m2 e2]; simpl;
    try reflexivity;
    try (destruct s1; try destruct s2; reflexivity);
    try (destruct s2; reflexivity).
  rewrite (Z.compare_antisym e1 e2).
  change (Pos.compare_cont Eq m2 m1) with (Pos.compare_cont (CompOpp Eq) m2 m1).
  rewrite <- (Pos.compare_cont_antisym m1 m2 Eq).
  destruct s1, s2; simpl; try reflexivity;
    destruct (e1 ?= e2)%Z; simpl; try reflexivity;
    destruct (Pos.compare_cont Eq m1 m2); reflexivity.
Qed.

Lemma SFcompare_refl x : x <> S754_nan -> SFcompare x x = Some Eq.
Proof.
  destruct x as [s|s| |s m e]; simpl; intros H; try congruence.
  - now destruct s.
  - rewrite Z.compare_refl.
    replace (Pos.compare_cont Eq m m) with Eq
      by (symmetry; apply Pos.compare_refl).
    now destruct s.
Qed.

Lemma SFcompare_None x y :
  SFcompare x y = None -> x = S754_nan \/ y = S754_nan.
Proof.
  destruct x as [s1|s1| |s1 m1 e1], y as [s2|s2| |s2 m2 e2]; simpl;
    try discriminate; auto.
Qed.

Lemma is_nan_Prim2SF x : is_nan x = false <-> Prim2SF x <> S754_nan.
Proof.
  unfold is_nan. rewrite eqb_spec. unfold SFeqb. split.
  - intros H E. rewrite E in H. discriminate.
  - intros H. now rewrite SFcompare_refl.
Qed.

(** [0 + x == x] for every [x] that is a number. *)
Lemma add_zero_l x : is_nan x = false -> (0 + x =? x) = true.
Proof.
  intros H. apply is_nan_Prim2SF in H.
  rewrite eqb_spec, add_spec. unfold SFeqb.
  change (Prim2SF 0) with (S754_zero false). unfold SF64add.
  destruct (Prim2SF x) as [s|s| |s m e] eqn:E; simpl; try congruence.
  - now destruct s.
  - now destruct s.
  - rewrite Z.compare_refl.
    replace (Pos.compare_cont Eq m m) with Eq
      by (symmetry; apply Pos.compare_refl).
    now destruct s.
Qed.

Lemma ltb_leb_false x y : (x <? y) = true -> (y <=? x) = false.
Proof.
  rewrite ltb_spec, leb_spec. unfold SFltb, SFleb.
  rewrite (SFcompare_antisym (Prim2SF x) (Prim2SF y)).
  now destruct (SFcompare (Prim2SF x) (Prim2SF y)) as [[]|].
Qed.

Lemma ltb_false_leb x y :
  is_nan x = false -> is_nan y = false ->
  (x <? y) = false -> (y <=? x) = true.
Proof.
  intros Hx Hy. apply is_nan_Prim2SF in Hx. apply is_nan_Prim2SF in Hy.
  rewrite ltb_spec, leb_spec. unfold SFltb, SFleb.
  rewrite (SFcompare_antisym (Prim2SF x) (Prim2SF y)).
  destruct (SFcompare (Prim2SF x) (Prim2SF y)) as [[]|] eqn:E;
    simpl; try easy.
  apply SFcompare_None in E. tauto.
Qed.

Lemma max_zero_not_negative x : (PyFloat.max x 0 <? 0) = false.
Proof.
  unfold PyFloat.max. destruct (x <? 0) eqn:E; [reflexivity | exact E].
Qed.

Lemma max_zero_at_least_zero x :
  is_nan (PyFloat.max x 0) = false -> (0 <=? PyFloat.max x 0) = true.
Proof.
  unfold PyFloat.max. destruct (x <? 0) eqn:E; intros H.
  - reflexivity.
  - now apply ltb_false_leb.
Qed.

End FloatFacts.

(** ** Strings: decimal numerals are injective *)

Lemma str_inj a b : PyStr.str a = PyStr.str b -> a = b.
Proof.
  unfold PyStr.str. intros H.
  assert (E : Some (Z.to_int a) = Some (Z.to_int b)).
  { rewrite <- !NilEmpty.isi. now rewrite H. }
  injection E as E.
  rewrite <- (DecimalZ.of_to a), <- (DecimalZ.of_to b). now rewrite E.
Qed.

(** ** Lists: nested filters *)

Lemma filter_filter {A} (p q : A -> bool) l :
  filter p (filter q l) = filter (fun x => q x && p x) l.
Proof.
  induction l as [|x l IH]; simpl; [reflexivity|].
  destruct (q x); simpl; [destruct (p x)|]; now rewrite IH.
Qed.

Lemma filter_idempotent {A} (p : A -> bool) l :
  filter p (filter p l) = filter p l.
Proof.
  rewrite filter_filter. apply filter_ext. intros x. now destruct (p x).
Qed.

Lemma filter_comm {A} (p q : A -> bool) l :
  filter p (filter q l) = filter q (filter p l).
Proof.
  rewrite !filter_filter. apply filter_ext. intros x. apply andb_comm.
Qed.

Lemma range_nth n i d : nth_error (range n) i = Some d -> d = Z.of_nat i.
Proof.
  unfold range. intros H.
  destruct (nth_error (seq 0 (Z.to_nat n)) i) as [k|] eqn:E.
  - rewrite (map_nth_error Z.of_nat _ _ E) in H. injection H as <-.
    assert (Hi : (i < List.length (seq 0 (Z.to_nat n)))%nat)
      by (apply nth_error_Some; congruence).
    rewrite length_seq in Hi.
    apply (nth_error_nth _ _ 0%nat) in E.
    rewrite seq_nth in E by exact Hi. now subst k.
  - apply nth_error_None in E. rewrite <- (length_map Z.of_nat) in E.
    apply nth_error_None in E. congruence.
Qed.

(** ** The generators *)

Section Generators.

Import Random Generate PyRound.
Local Open Scope float_scope.

Context {R : Source}.

Lemma for_each_cons {A B} (body : A -> M B) x xs s :
  fst (for_each body (x :: xs) s)
  = fst (body x s) :: fst (for_each body xs (snd (body x s))).
Proof.
  simpl. unfold bind, ret.
  destruct (body x s) as [b s1]. simpl.
  now destruct (for_each body xs s1).
Qed.

(** What holds of every round of a loop holds of every row it appends. *)
Lemma for_each_Forall {A B} (P : B -> Prop) (body : A -> M B) :
  (forall x s, P (fst (body x s))) ->
  forall xs s, Forall P (fst (for_each body xs s)).
Proof.
  intros HP xs. induction xs as [|x xs IH]; intros s.
  - constructor.
  - rewrite for_each_cons. constructor; [apply HP | apply IH].
Qed.

(** Two loops whose rounds advance the generator alike and return related
    values return related lists. *)
Lemma for_each_Forall2 {A B C} (Q : B -> C -> Prop)
    (body : A -> M B) (body' : A -> M C) :
  (forall x s, Q (fst (body x s)) (fst (body' x s))
               /\ snd (body x s) = snd (body' x s)) ->
  forall xs s, Forall2 Q (fst (for_each body xs s)) (fst (for_each body' xs s)).
Proof.
  intros H xs. induction xs as [|x xs IH]; intros s.
  - constructor.
  - rewrite !for_each_cons. destruct (H x s) as [Hq Hs].
    constructor; [exact Hq|]. rewrite <- Hs. apply IH.
Qed.

Ltac run_draws :=
  repeat match goal with
    | |- context [random ?s] => destruct (random s) as [? ?]
    | |- context [randbelow ?n ?s] => destruct (randbelow n s) as [? ?]
    end.

Lemma sent_amount_run upper p s :
  exists x s', sent_amount upper p s = (x, s').
Proof. now exists (fst (sent_amount upper p s)), (snd (sent_amount upper p s)); destruct (sent_amount upper p s). Qed.

(** One round of [generate_demo_clients]: the total is the sum of the four
    amounts drawn, the balance is the rounded [max_balance - total_sent +
    noise] passed through [max(_, 0)]. *)
Lemma demo_client_row now i s :
  let r := fst (demo_client now i s) in
  total_sent r = cash_app_sent r + zelle_sent r + paypal_sent r + bank_transfer r
  /\ exists s',
       let noise := fst (uniform (-200) 500 s') in
       current_balance r
       = PyFloat.max (round2 (max_balance r - total_sent r + noise)) 0.
Proof.
  unfold demo_client, uniform, randint, choice, bind, ret.
  destruct (randbelow _ s) as [i1 s1].
  destruct (randbelow _ s1) as [i2 s2].
  destruct (sent_amount_run 1000 0.3 s2) as (a & s3 & ->).
  destruct (sent_amount_run 800 0.4 s3) as (b & s4 & ->).
  destruct (sent_amount_run 1200 0.2 s4) as (c & s5 & ->).
  destruct (sent_amount_run 2000 0.6 s5) as (d & s6 & ->).
  destruct (random s6) as [r1 s7].
  destruct (random s7) as [r2 s8] eqn:E.
  run_draws. simpl. split; [reflexivity|]. exists s7.
  unfold uniform, bind, ret. now rewrite E.
Qed.

(** One round of [generate_daily_logs]. *)
Lemma daily_logs_from_cons num_days now d rest acc s :
  exists e s',
    fst (daily_logs_from num_days now (d :: rest) acc s)
    = e :: fst (daily_logs_from num_days now rest (cumulative_total e) s')
    /\ cumulative_total e = acc + daily_total e
    /\ daily_total e
       = log_cash_app e + log_zelle e + log_paypal e + log_bank_transfer e
    /\ log_date e = (day now - (num_days - d - 1))%Z.
Proof.
  cbn [daily_logs_from]. unfold uniform, randint, bind, ret.
  run_draws.
  match goal with
  | |- context [daily_logs_from _ _ rest ?a ?s'] =>
      destruct (daily_logs_from num_days now rest a s') as [logs s''] eqn:E
  end.
  eexists. eexists. split.
  - cbn [fst]. apply f_equal2; [reflexivity|].
    cbn [cumulative_total]. now rewrite E.
  - repeat split.
Qed.

Lemma daily_logs_from_spec num_days now days :
  forall acc s,
    let logs := fst (daily_logs_from num_days now days acc s) in
    (forall e, nth_error logs 0 = Some e ->
               cumulative_total e = acc + daily_total e)
    /\ (forall i prev e,
          nth_error logs i = Some prev -> nth_error logs (S i) = Some e ->
          cumulative_total e = cumulative_total prev + daily_total e)
    /\ (forall i e,
          nth_error logs i = Some e ->
          exists d, nth_error days i = Some d
                    /\ log_date e = (day now - (num_days - d - 1))%Z).
Proof.
  induction days as [|d rest IH]; intros acc s logs.
  - subst logs. simpl. split; [|split].
    + discriminate.
    + intros [|i] prev e H; discriminate.
    + intros [|i] e H; discriminate.
  - destruct (daily_logs_from_cons num_days now d rest acc s)
      as (e0 & s' & Hl & Hc & _ & Hd).
    subst logs. rewrite Hl.
    destruct (IH (cumulative_total e0) s') as (IH0 & IHs & IHd).
    repeat split.
    + intros e He. simpl in He. injection He as <-. exact Hc.
    + intros [|i] prev e Hp He; simpl in Hp, He.
      * injection Hp as <-. now apply IH0.
      * now apply (IHs i).
    + intros [|i] e He; simpl in He.
      * injection He as <-. exists d. now split.
      * now apply IHd.
Qed.

(** The identifiers of a journal are the numbers drawn for them, behind
    the prefix. *)
Lemma confirmation_ids_of_numbers now s :
  map confirmation_id (fst (generate_payout_confirmations now s))
  = map (fun k => "PAY-" ++ PyStr.str k)%string (fst (confirmation_numbers now s)).
Proof.
  unfold generate_payout_confirmations, confirmation_numbers.
  match goal with
  | |- map _ (fst (for_each ?b ?xs s)) = map ?f (fst (for_each ?b' ?xs s)) =>
      assert (H : Forall2 (fun p k => confirmation_id p = f k)
                    (fst (for_each b xs s)) (fst (for_each b' xs s)))
  end.
  { apply for_each_Forall2. intros x s0.
    unfold payout_confirmation, uniform, randint, choice, bind, ret.
    run_draws. simpl. split; reflexivity. }
  induction H as [|p k ps ks Hpk _ IH]; simpl; [reflexivity|].
  now rewrite Hpk, IH.
Qed.

End Generators.

Lemma pay_prefix_inj a b :
  ("PAY-" ++ PyStr.str a = "PAY-" ++ PyStr.str b)%string -> a = b.
Proof. simpl. intros H. injection H as H. now apply str_inj. Qed.

Section GeneratedData.

Import Random Generate PyRound.
Local Open Scope float_scope.

Context {R : Source}.

Lemma for_each_length {A B} (body : A -> M B) xs :
  forall s, List.length (fst (for_each body xs s)) = List.length xs.
Proof.
  induction xs as [|x xs IH]; intros s; [reflexivity|].
  rewrite for_each_cons. simpl. now rewrite IH.
Qed.



(** C8: in every registry returned by [generate_demo_clients], each row
    stores as its total sent the sum of its four per-channel amounts (Cash
    App, Zelle, PayPal, bank transfer), added in that order. *)
Theorem total_sent_is_sum_of_channels num_clients now s :
  Forall (fun r =>
            total_sent r
            = cash_app_sent r + zelle_sent r + paypal_sent r + bank_transfer r)
         (fst (generate_demo_clients num_clients now s)).
Proof.
  unfold generate_demo_clients.
  apply for_each_Forall. intros i s0. apply demo_client_row.
Qed.

(** C5: in every registry returned by [generate_demo_clients], each row's
    current balance is the rounded [max_balance - total_sent + noise]
    ([noise] a draw of [uniform(-200, 500)]) when that is not negative and
    0 when it is; it is never below 0, and it is at least 0 whenever it is
    a number. *)
Theorem current_balance_clamped num_clients now s :
  Forall (fun r =>
            exists s',
              let noise := fst (uniform (-200) 500 s') in
              let computed := round2 (max_balance r - total_sent r + noise) in
              current_balance r = (if computed <? 0 then 0 else computed)
              /\ (current_balance r <? 0) = false
              /\ (is_nan (current_balance r) = false ->
                  (0 <=? current_balance r) = true))
         (fst (generate_demo_clients num_clients now s)).
Proof.
  unfold generate_demo_clients.
  apply for_each_Forall. intros i s0.
  destruct (demo_client_row now i s0) as (_ & s' & Hb).
  exists s'. cbv zeta in *. rewrite Hb. repeat split.
  - apply max_zero_not_negative.
  - apply max_zero_at_least_zero.
Qed.

(** C2: in every ledger returned by [generate_daily_logs], whatever the
    number of days, the rows are in chronological order (row [i] is dated
    [num_days - i - 1] days before today), the cumulative total of row 0
    equals its daily total, and the cumulative total of every later row is
    the cumulative total of the row before plus its own daily total. *)
Theorem cumulative_total_is_running_sum num_days now s :
  let logs := fst (generate_daily_logs num_days now s) in
  (forall e, nth_error logs 0 = Some e ->
             is_nan (daily_total e) = false ->
             (cumulative_total e =? daily_total e) = true)
  /\ (forall i prev e,
        nth_error logs i = Some prev -> nth_error logs (S i) = Some e ->
        cumulative_total e = cumulative_total prev + daily_total e)
  /\ (forall i e,
        nth_error logs i = Some e ->
        log_date e = (day now - (num_days - Z.of_nat i - 1))%Z).
Proof.
  unfold generate_daily_logs.
  destruct (daily_logs_from_spec num_days now (range num_days) 0 s)
    as (H0 & Hs & Hd).
  repeat split.
  - intros e He Hn. rewrite (H0 e He). now apply add_zero_l.
  - exact Hs.
  - intros i e He. destruct (Hd i e He) as (d & Hi & ->).
    now rewrite (range_nth _ _ _ Hi).
Qed.


(** C9, as the code has it: a journal returned by
    [generate_payout_confirmations] has 15 rows, the identifier of each row
    is ["PAY-"] followed by the number drawn for it, and the identifiers
    are pairwise distinct exactly when the 15 numbers drawn are. *)
Theorem confirmation_ids_distinct_iff_draws_distinct now s :
  let journal := fst (generate_payout_confirmations now s) in
  let numbers := fst (confirmation_numbers now s) in
  List.length journal = 15%nat
  /\ map confirmation_id journal
     = map (fun k => "PAY-" ++ PyStr.str k)%string numbers
  /\ (NoDup (map confirmation_id journal) <-> NoDup numbers).
Proof.
  cbv zeta. split; [|split].
  - unfold generate_payout_confirmations. now rewrite for_each_length.
  - apply confirmation_ids_of_numbers.
  - rewrite confirmation_ids_of_numbers. split.
    + apply NoDup_map_inv.
    + apply Injective_map_NoDup. intros a b. apply pay_prefix_inj.
Qed.

End GeneratedData.

Section GeneratedDataExamples.

Import Random Generate PyRound Sample.
Local Open Scope float_scope.

(** The overdrawn client of [Sample.clients] is stored with balance 0, the
    other one with the balance computed for it. *)
Lemma current_balance_clamped_witness :
  map current_balance Sample.clients = [0; 2900]
  /\ Forall (fun r => (0 <=? current_balance r) = true) Sample.clients.
Proof.
  split; [vm_compute; reflexivity|].
  pose proof (current_balance_clamped (R := replay client_draws) 2 now []) as H.
  change (fst (@generate_demo_clients (replay client_draws) 2 now []))
    with Sample.clients in H.
  remember Sample.clients as l eqn:E. vm_compute in E. subst l.
  destruct (Forall_inv H) as (noise1 & _ & _ & H1).
  destruct (Forall_inv (Forall_inv_tail H)) as (noise2 & _ & _ & H2).
  constructor; [apply H1; reflexivity|].
  constructor; [apply H2; reflexivity|].
  constructor.
Defined.

(** The three-day ledger of [Sample.ledger]. *)
Lemma cumulative_total_is_running_sum_witness :
  exists e0 e1 e2,
    Sample.ledger = [e0; e1; e2]
    /\ (cumulative_total e0 =? daily_total e0) = true
    /\ cumulative_total e1 = cumulative_total e0 + daily_total e1
    /\ cumulative_total e2 = cumulative_total e1 + daily_total e2
    /\ map log_date Sample.ledger = [739923; 739924; 739925]%Z.
Proof.
  destruct (cumulative_total_is_running_sum (R := replay []) 3 now ledger_draws)
    as (H0 & Hs & _).
  change (fst (@generate_daily_logs (replay []) 3 now ledger_draws))
    with Sample.ledger in *.
  remember Sample.ledger as l eqn:E. vm_compute in E. subst l.
  do 3 eexists. split; [reflexivity|].
  split; [apply H0; reflexivity|].
  split; [apply (Hs 0%nat); reflexivity|].
  split; [apply (Hs 1%nat); reflexivity|].
  reflexivity.
Defined.

(** C9 fails as stated: the first two rows of [Sample.journal], produced
    by one call of [generate_payout_confirmations], carry the same
    identifier. *)
Lemma journal_repeats_an_identifier :
  exists p q,
    nth_error Sample.journal 0 = Some p
    /\ nth_error Sample.journal 1 = Some q
    /\ confirmation_id p = confirmation_id q
    /\ ~ NoDup (map confirmation_id Sample.journal).
Proof.
  do 2 eexists. split; [vm_compute; reflexivity|].
  split; [vm_compute; reflexivity|].
  split; [reflexivity|].
  remember (map confirmation_id Sample.journal) as ids eqn:E.
  vm_compute in E. subst ids.
  intros H. inversion H as [|x l Hn _]. apply Hn. now left.
Qed.

End GeneratedDataExamples.

(** ** The filters of the page *)

Section Filtering.

Import App Spec Pandas.
Local Open Scope float_scope.

(** The sidebar filters, applied one after the other, keep the rows that
    pass the three predicates together. *)
Lemma sidebar_filter_conj w df :
  sidebar_filter w df = filter (sidebar_ok w) df.
Proof.
  unfold sidebar_filter, sidebar_ok, verification_ok, payout_ok, balance_ok.
  destruct (verification_filter w =? "All")%string;
    destruct (payout_filter w =? "All")%string; simpl;
    rewrite ?filter_filter; apply filter_ext; intros r;
    rewrite ?andb_true_r, ?andb_assoc; reflexivity.
Qed.

Lemma search_filter_pass w df view :
  search_filter w df = Some view -> view = filter (pattern_pass w) df.
Proof.
  unfold search_filter, pattern_pass.
  destruct (search_term w =? "")%string.
  - intros [= <-]. simpl. induction df as [|r df IH]; simpl; congruence.
  - destruct (PyStr.compile (search_term w)) as [re|]; [|discriminate].
    intros [= <-]. reflexivity.
Qed.

Lemma search_filter_defined w df df' :
  search_filter w df <> None -> search_filter w df' <> None.
Proof.
  unfold search_filter.
  destruct (search_term w =? "")%string; [discriminate|].
  now destruct (PyStr.compile (search_term w)).
Qed.

Lemma search_filter_run w df :
  search_filter w [] <> None ->
  search_filter w df = Some (filter (pattern_pass w) df).
Proof.
  intros H. apply (search_filter_defined w [] df) in H.
  destruct (search_filter w df) as [view|] eqn:E; [|congruence].
  now rewrite (search_filter_pass _ _ _ E).
Qed.

(** The guarded rate never stops on a division by zero. *)
Lemma verification_rate_of_defined count n :
  verification_rate_of count n
  = Some (if (0 <? n)%Z then PyFloat.of_int count / PyFloat.of_int n * 100
          else 0).
Proof.
  unfold verification_rate_of, int_truediv.
  destruct (0 <? n)%Z eqn:E; [|reflexivity].
  apply Z.ltb_lt in E.
  destruct (n =? 0)%Z eqn:E0; [apply Z.eqb_eq in E0; lia | reflexivity].
Qed.

(** A run of the script ends normally exactly when the slider can be set
    up and the search term is covered by the model; the page then reads as
    follows. *)
Lemma app_page s w pg :
  app s w = Some pg ->
  let side := sidebar_filter w (client_data s) in
  let logs := logs_filter w (daily_logs s) in
  let pays := payout_confirmations s in
  default_balance_range (client_data s) <> None
  /\ search_filter w side = Some (client_table pg)
  /\ shown_total_clients pg = len side
  /\ shown_total_sent pg = series_sum (map total_sent side)
  /\ shown_total_sent_delta pg = avg_delta (shown_total_sent pg) (len side)
  /\ shown_total_balance pg = series_sum (map current_balance side)
  /\ shown_total_balance_delta pg = avg_delta (shown_total_balance pg) (len side)
  /\ shown_verified_delta pg = (len (filter is_verified side), len side)
  /\ verification_rate_of (len (filter is_verified side)) (len side)
     = Some (shown_verification_rate pg)
  /\ shown_confirmed_payouts pg = len (filter (has_status "Completed") pays)
  /\ logs_table pg = logs
  /\ shown_days_tracked pg = len logs
  /\ shown_avg_daily pg = series_mean (map daily_total logs)
  /\ shown_total_period pg = series_sum (map daily_total logs)
  /\ shown_cash_app pg = series_sum (map log_cash_app logs)
  /\ shown_zelle pg = series_sum (map log_zelle logs)
  /\ shown_paypal pg = series_sum (map log_paypal logs)
  /\ shown_bank_transfer pg = series_sum (map log_bank_transfer logs)
  /\ payouts_table pg = payouts_filter w pays
  /\ shown_completed_amount pg
     = series_sum (map amount (filter (has_status "Completed") pays))
  /\ shown_processing_count pg = len (filter (has_status "Processing") pays)
  /\ shown_failed_count pg = len (filter (has_status "Failed") pays).
Proof.
  unfold app. cbv zeta.
  destruct (default_balance_range (client_data s)) as [range|]; [|discriminate].
  fold is_verified.
  destruct (verification_rate_of _ _) as [rate|] eqn:Er; [|discriminate].
  destruct (search_filter w _) as [view|] eqn:Es; [|discriminate].
  intros [= <-]. cbn -[sidebar_filter logs_filter payouts_filter series_sum
                       series_mean avg_delta len is_verified].
  repeat (split; [first [reflexivity | assumption | discriminate]|]).
  reflexivity.
Qed.

End Filtering.

(** ** The search box *)

Section SearchBox.

Import App Spec PyStr.

Lemma dot_is_special c : Ascii.eqb c "." = true -> is_special c = true.
Proof. intros H. apply Ascii.eqb_eq in H. now subst c. Qed.

Lemma compile_plain t :
  plain t = true -> compile t = Some (map Lit (list_ascii_of_string t)).
Proof.
  induction t as [|c t IH]; simpl; [reflexivity|].
  intros H. apply andb_prop in H as [H Ht]. apply andb_prop in H as [Ha Hs].
  rewrite Ha. simpl.
  destruct (Ascii.eqb c ".") eqn:Ed.
  - apply dot_is_special in Ed. rewrite Ed in Hs. discriminate.
  - apply negb_true_iff in Hs. rewrite Hs, (IH Ht). reflexivity.
Qed.

Lemma match_here_literals t s :
  match_here (map Lit (list_ascii_of_string t)) s
  = starts_with (lower t) (lower s).
Proof.
  revert s. induction t as [|c t IH]; intros s; simpl.
  - now destruct s.
  - destruct s as [|d s]; simpl; [reflexivity|]. now rewrite IH.
Qed.

Lemma search_literals t s :
  search (map Lit (list_ascii_of_string t)) s = contains_ignoring_case t s.
Proof.
  unfold contains_ignoring_case.
  induction s as [|d s IH].
  - simpl. rewrite match_here_literals. reflexivity.
  - cbn [search lower has_substring]. rewrite IH, match_here_literals.
    reflexivity.
Qed.

(** On a term without special characters the search box keeps exactly the
    rows whose name or email contains the term, case ignored. *)
Lemma plain_term_is_substring_search w r :
  plain (search_term w) = true -> pattern_pass w r = search_ok w r.
Proof.
  intros H. unfold pattern_pass, search_ok, pattern_ok.
  rewrite (compile_plain _ H), !search_literals. now rewrite orb_assoc.
Qed.

(** The rows of the client table are the rows of the registry that pass
    the three sidebar predicates and the search box, all at once. *)
Lemma client_table_is_conjunction s w pg :
  app s w = Some pg ->
  client_table pg
  = filter (fun r => verification_ok w r && payout_ok w r && balance_ok w r
                     && pattern_pass w r)
           (client_data s).
Proof.
  intros H. apply app_page in H. cbv zeta in H.
  destruct H as (_ & Hs & _). apply search_filter_pass in Hs.
  rewrite Hs, sidebar_filter_conj, filter_filter. reflexivity.
Qed.

(** C3, at the failing input: with the term [x.n] in the search box the
    client table of [Sample.data] lists Alexander Johnson, whose name and
    email do not contain [x.n]; the dot of the term is read as "any
    character" and matches the [a] of "Alexander". *)
Theorem search_term_is_read_as_a_pattern :
  option_map client_table
    (app Sample.data (Sample.with_search "x.n" Sample.untouched))
  = Some [Sample.alexander]
  /\ search_ok (Sample.with_search "x.n" Sample.untouched) Sample.alexander
     = false
  /\ contains_ignoring_case "x.n" (name Sample.alexander) = false
  /\ contains_ignoring_case "x.n" (email Sample.alexander) = false.
Proof. repeat split; vm_compute; reflexivity. Qed.

End SearchBox.

(** ** What the page shows *)

Section Page.

Import App Spec Pandas.
Local Open Scope float_scope.

(** C1 fails as stated: on [Sample.data], with "alex" in the search box
    and "Completed" selected for the payout table, the filtered views are
    the one client Alexander Johnson and the two completed payouts, but
    the page shows the total sent of two clients and counts the processing
    and failed payouts of the whole journal. *)
Lemma displayed_metrics_ignore_search_and_status_choice :
  exists pg,
    app Sample.data
        (Sample.with_search "alex"
           (Sample.with_payout_status "Completed" Sample.untouched))
    = Some pg
    /\ client_table pg = [Sample.alexander]
    /\ (shown_total_sent pg =? series_sum (map total_sent (client_table pg)))
       = false
    /\ (shown_total_balance pg
        =? series_sum (map current_balance (client_table pg))) = false
    /\ shown_processing_count pg
       <> len (filter (has_status "Processing") (payouts_table pg))
    /\ shown_failed_count pg
       <> len (filter (has_status "Failed") (payouts_table pg)).
Proof.
  eexists. split; [vm_compute; reflexivity|].
  split; [vm_compute; reflexivity|].
  split; [vm_compute; reflexivity|].
  split; [vm_compute; reflexivity|].
  split; vm_compute; discriminate.
Qed.

End Page.

(** ** Filtering twice, filtering by date, and the starting balance range *)

Section Views.

Import App Spec Pandas.
Local Open Scope float_scope.

Lemma payouts_filter_status w df :
  payouts_filter w df = filter (status_ok w) df.
Proof.
  unfold payouts_filter, status_ok.
  destruct (payout_status_filter w =? "All")%string; simpl; [|reflexivity].
  induction df as [|p df IH]; simpl; congruence.
Qed.

Lemma logs_filter_idempotent w df :
  logs_filter w (logs_filter w df) = logs_filter w df.
Proof.
  unfold logs_filter.
  destruct (date_range w) as [|a [|b [|c rest]]]; try reflexivity.
  apply filter_idempotent.
Qed.

(** C4: each filter of the page, applied to its own result with the same
    selections, returns that result: the client filter (sidebar and search
    box together, and the sidebar alone), the date filter of the ledger and
    the status filter of the payout table. *)
Theorem filtering_is_idempotent w :
  (forall df view,
      clients_filter w df = Some view -> clients_filter w view = Some view)
  /\ (forall df, sidebar_filter w (sidebar_filter w df) = sidebar_filter w df)
  /\ (forall df, logs_filter w (logs_filter w df) = logs_filter w df)
  /\ (forall df, payouts_filter w (payouts_filter w df) = payouts_filter w df).
Proof.
  repeat split.
  - intros df view H. unfold clients_filter in *.
    assert (Hdef : search_filter w [] <> None).
    { apply (search_filter_defined w (sidebar_filter w df)). congruence. }
    apply search_filter_pass in H. rewrite (search_filter_run _ _ Hdef).
    f_equal. subst view. rewrite !sidebar_filter_conj, !filter_filter.
    apply filter_ext. intros r.
    now destruct (sidebar_ok w r), (pattern_pass w r).
  - intros df. rewrite !sidebar_filter_conj. apply filter_idempotent.
  - intros df. apply logs_filter_idempotent.
  - intros df. rewrite !payouts_filter_status. apply filter_idempotent.
Qed.

(** On [Sample.registry] with "alex" in the search box. *)
Lemma filtering_is_idempotent_witness :
  clients_filter (Sample.with_search "alex" Sample.untouched) Sample.registry
  = Some [Sample.alexander]
  /\ clients_filter (Sample.with_search "alex" Sample.untouched)
       [Sample.alexander]
     = Some [Sample.alexander].
Proof.
  assert (H : clients_filter (Sample.with_search "alex" Sample.untouched)
                Sample.registry = Some [Sample.alexander])
    by (vm_compute; reflexivity).
  split; [exact H|].
  exact (proj1 (filtering_is_idempotent
                  (Sample.with_search "alex" Sample.untouched)) _ _ H).
Defined.

(** C6: when the date range does not hold exactly two dates the ledger
    passes through unchanged; when it holds a start and an end, the filter
    keeps the rows, in order, whose date is between them, both included. *)
Theorem logs_filter_by_date_range w logs_df :
  (List.length (date_range w) <> 2%nat -> logs_filter w logs_df = logs_df)
  /\ (forall start_date end_date,
        date_range w = [start_date; end_date] ->
        logs_filter w logs_df = filter (date_ok start_date end_date) logs_df
        /\ forall e,
             In e (logs_filter w logs_df)
             <-> In e logs_df /\ (start_date <= log_date e <= end_date)%Z).
Proof.
  unfold logs_filter. split.
  - destruct (date_range w) as [|a [|b [|c rest]]]; simpl; congruence.
  - intros start_date end_date ->. split; [reflexivity|].
    intros e. rewrite filter_In. unfold date_ok.
    rewrite andb_true_iff, !Z.leb_le. tauto.
Qed.

(** On [Sample.some_logs]: the last two days, and a range with one date. *)
Lemma logs_filter_by_date_range_witness :
  map log_date (logs_filter Sample.untouched Sample.some_logs)
  = [739924; 739925]%Z
  /\ logs_filter (Sample.with_date_range [739924%Z] Sample.untouched)
       Sample.some_logs
     = Sample.some_logs.
Proof.
  split.
  - destruct (proj2 (logs_filter_by_date_range Sample.untouched Sample.some_logs)
                739924%Z 739925%Z eq_refl) as [-> _].
    reflexivity.
  - apply (proj1 (logs_filter_by_date_range
                    (Sample.with_date_range [739924%Z] Sample.untouched)
                    Sample.some_logs)).
    simpl. discriminate.
Defined.

(** C10: the slider starts at [(0, int(max))], [max] being the largest
    current balance of the registry.  When that balance is larger than its
    own truncation, the client who holds it does not pass the sidebar
    filter under the starting range, and so is missing from the client
    table, whatever the other selections. *)
Theorem default_range_drops_fractional_maximum s w c hi :
  In c (client_data s) ->
  series_max (map current_balance (client_data s)) = current_balance c ->
  PyFloat.to_int (current_balance c) = Some hi ->
  (PyFloat.of_int hi <? current_balance c) = true ->
  default_balance_range (client_data s) = Some (0%Z, hi)
  /\ (balance_range w = (0%Z, hi) ->
      ~ In c (sidebar_filter w (client_data s))
      /\ forall pg, app s w = Some pg -> ~ In c (client_table pg)).
Proof.
  intros Hin Hmax Hint Hfrac. split.
  - unfold default_balance_range. now rewrite Hmax, Hint.
  - intros Hr.
    assert (Hout : ~ In c (sidebar_filter w (client_data s))).
    { rewrite sidebar_filter_conj, filter_In.
      unfold sidebar_ok, balance_ok. rewrite Hr. cbn [fst snd].
      rewrite (ltb_leb_false _ _ Hfrac), !andb_false_r.
      intros [_ F]. discriminate. }
    split; [exact Hout|].
    intros pg Hpg Hc. apply Hout.
    apply app_page in Hpg. cbv zeta in Hpg. destruct Hpg as (_ & Hs & _).
    apply search_filter_pass in Hs. rewrite Hs in Hc.
    now apply filter_In in Hc.
Qed.

(** On [Sample.data] with every widget untouched: Samantha Lee holds the
    largest balance, 4321.57, the slider stops at 4321, and she is not in
    the client table. *)
Lemma default_range_drops_fractional_maximum_witness :
  default_balance_range Sample.registry = Some (0%Z, 4321%Z)
  /\ ~ In Sample.samantha (sidebar_filter Sample.untouched Sample.registry)
  /\ option_map client_table (app Sample.data Sample.untouched)
     = Some [Sample.alexander; Sample.michael].
Proof.
  destruct (default_range_drops_fractional_maximum
              Sample.data Sample.untouched Sample.samantha 4321%Z)
    as (Hd & Hout).
  - simpl. auto.
  - vm_compute. reflexivity.
  - vm_compute. reflexivity.
  - vm_compute. reflexivity.
  - split; [exact Hd|]. split; [exact (proj1 (Hout eq_refl))|].
    vm_compute. reflexivity.
Defined.

End Views.

(** ** More on the generated data *)

Section GeneratedShape.

Import Random Generate PyRound App Script.
Local Open Scope float_scope.

Context {R : Source}.


Lemma for_each_map_const {A B C} (f : B -> C) (g : A -> C) (body : A -> M B) :
  (forall x s, f (fst (body x s)) = g x) ->
  forall xs s, map f (fst (for_each body xs s)) = map g xs.
Proof.
  intros H xs. induction xs as [|x xs IH]; intros s; [reflexivity|].
  rewrite for_each_cons. simpl. now rewrite H, IH.
Qed.

Lemma demo_client_id now i s :
  client_id (fst (demo_client now i s))
  = ("DD-" ++ PyStr.format_0d 4 (1000 + i))%string.
Proof.
  unfold demo_client, uniform, randint, choice, bind, ret.
  destruct (randbelow _ s) as [i1 s1].
  destruct (randbelow _ s1) as [i2 s2].
  destruct (sent_amount_run 1000 0.3 s2) as (a & s3 & ->).
  destruct (sent_amount_run 800 0.4 s3) as (b & s4 & ->).
  destruct (sent_amount_run 1200 0.2 s4) as (c & s5 & ->).
  destruct (sent_amount_run 2000 0.6 s5) as (d & s6 & ->).
  repeat match goal with
         | |- context [random ?s] => destruct (random s) as [? ?]
         | |- context [randbelow ?n ?s] => destruct (randbelow n s) as [? ?]
         end.
  reflexivity.
Qed.

Lemma uint_of_zeros k s :
  NilEmpty.uint_of_string (PyStr.zeros k ++ s)
  = option_map (Nat.iter k Decimal.D0) (NilEmpty.uint_of_string s).
Proof.
  induction k as [|k IH]; simpl.
  - now destruct (NilEmpty.uint_of_string s).
  - rewrite IH. now destruct (NilEmpty.uint_of_string s).
Qed.

Lemma of_uint_zeros k d : N.of_uint (Nat.iter k Decimal.D0 d) = N.of_uint d.
Proof. induction k as [|k IH]; simpl; [reflexivity | exact IH]. Qed.

(** Reading back the digits written by [format_0d] gives the number. *)
Lemma int_of_digits_format w n :
  (0 <= n)%Z -> int_of_digits (PyStr.format_0d w n) = Some n.
Proof.
  intros Hn. unfold int_of_digits, PyStr.format_0d, PyStr.str.
  destruct (n <? 0)%Z eqn:E; [apply Z.ltb_lt in E; lia|].
  rewrite uint_of_zeros.
  assert (Hd : exists d, Z.to_int n = Decimal.Pos d /\ Z.of_N (N.of_uint d) = n).
  { destruct n as [|p|p]; simpl.
    - eexists. split; reflexivity.
    - eexists. split; [reflexivity|].
      change (N.of_uint (Pos.to_uint p)) with (N.of_uint (N.to_uint (Npos p))).
      now rewrite DecimalN.Unsigned.of_to.
    - lia. }
  destruct Hd as (d & -> & Hd). simpl.
  rewrite NilEmpty.usu. simpl. now rewrite of_uint_zeros, Hd.
Qed.

Lemma append_inj_r (p x y : string) : (p ++ x = p ++ y)%string -> x = y.
Proof.
  induction p as [|c p IH]; simpl; [trivial|].
  intros H. injection H as H. auto.
Qed.

Lemma client_id_inj a b :
  (0 <= a)%Z -> (0 <= b)%Z ->
  ("DD-" ++ PyStr.format_0d 4 (1000 + a) = "DD-" ++ PyStr.format_0d 4 (1000 + b))%string ->
  a = b.
Proof.
  intros Ha Hb H. apply append_inj_r in H.
  apply (f_equal int_of_digits) in H.
  rewrite !int_of_digits_format in H by lia.
  assert (E : (1000 + a = 1000 + b)%Z) by congruence. lia.
Qed.

Lemma range_NoDup n : NoDup (range n).
Proof.
  unfold range. apply Injective_map_NoDup; [|apply seq_NoDup].
  intros a b. apply Nat2Z.inj.
Qed.

Lemma range_nonneg n x : In x (range n) -> (0 <= x)%Z.
Proof. unfold range. rewrite in_map_iff. intros (k & <- & _). lia. Qed.

(** X2: in every registry returned by [generate_demo_clients], row [i]
    carries the identifier "DD-" followed by [1000 + i] written with the
    format [04d], and no two rows share an identifier. *)
Theorem client_ids_are_sequential_and_unique num_clients now s :
  let clients := fst (generate_demo_clients num_clients now s) in
  map client_id clients
  = map (fun i => "DD-" ++ PyStr.format_0d 4 (1000 + i))%string
        (range num_clients)
  /\ NoDup (map client_id clients).
Proof.
  cbv zeta. unfold generate_demo_clients.
  rewrite (for_each_map_const client_id _ _ (demo_client_id now)).
  split; [reflexivity|].
  apply NoDup_map_NoDup_ForallPairs; [|apply range_NoDup].
  intros a b Ha Hb. apply client_id_inj; eapply range_nonneg; eassumption.
Qed.

Lemma daily_logs_from_Forall (P : log_entry -> Prop) num_days now :
  (forall d rest acc s,
      exists e s',
        fst (daily_logs_from num_days now (d :: rest) acc s)
        = e :: fst (daily_logs_from num_days now rest (cumulative_total e) s')
        /\ P e) ->
  forall days acc s, Forall P (fst (daily_logs_from num_days now days acc s)).
Proof.
  intros H days. induction days as [|d rest IH]; intros acc s.
  - constructor.
  - destruct (H d rest acc s) as (e & s' & -> & He). constructor; auto.
Qed.

(** X3: in every ledger returned by [generate_daily_logs], each row's
    daily total is the sum of its four per-channel amounts (Cash App,
    Zelle, PayPal, bank transfer), added in that order. *)
Theorem daily_total_is_sum_of_channels num_days now s :
  Forall (fun e =>
            daily_total e
            = log_cash_app e + log_zelle e + log_paypal e + log_bank_transfer e)
         (fst (generate_daily_logs num_days now s)).
Proof.
  unfold generate_daily_logs. apply daily_logs_from_Forall.
  intros d rest acc s0.
  destruct (daily_logs_from_cons num_days now d rest acc s0)
    as (e & s' & Hl & _ & Hsum & _).
  exists e, s'. split; assumption.
Qed.

End GeneratedShape.

(** ** Generated data when the draws stay in range *)

Section GeneratedRanges.

Import Random Generate PyRound App Script.
Local Open Scope float_scope.

Context {R : Source}.
Hypothesis in_range : draws_in_range R.

Lemma choice_In {A} (d : A) (l : list A) s :
  l <> [] -> In (fst (choice d l s)) l.
Proof.
  intros Hl. unfold choice, bind, ret.
  assert (Hlen : (0 < Z.of_nat (List.length l))%Z)
    by (destruct l; [congruence | simpl; lia]).
  pose proof (in_range _ s Hlen) as Hr.
  destruct (randbelow _ s) as [i s']. simpl in *.
  apply nth_In. lia.
Qed.

Lemma randint_bounds a b s :
  (a <= b)%Z -> (a <= fst (randint a b s) <= b)%Z.
Proof.
  intros Hab. unfold randint, bind, ret.
  assert (Hw : (0 < b - a + 1)%Z) by lia.
  pose proof (in_range _ s Hw) as Hr.
  destruct (randbelow _ s) as [i s']. simpl in *. lia.
Qed.

Ltac draw_choice :=
  match goal with
  | |- context [choice ?d ?l ?s] =>
      let H := fresh "Hc" in
      pose proof (choice_In d l s ltac:(discriminate)) as H;
      destruct (choice d l s) as [? ?]; cbn [fst] in H
  end.

Ltac draw_randint :=
  match goal with
  | |- context [randint ?a ?b ?s] =>
      let H := fresh "Hr" in
      pose proof (randint_bounds a b s ltac:(lia)) as H;
      destruct (randint a b s) as [? ?]; cbn [fst] in H
  end.

Ltac draw_sent :=
  match goal with
  | |- context [sent_amount ?u ?p ?s] => destruct (sent_amount u p s) as [? ?]
  end.

Ltac draw_uniform :=
  match goal with
  | |- context [uniform ?a ?b ?s] => destruct (uniform a b s) as [? ?]
  end.

Lemma demo_client_fields now i s :
  let r := fst (demo_client now i s) in
  (exists first_name last_name suffix domain,
      In first_name first_names /\ In last_name last_names
      /\ (1 <= suffix <= 99)%Z /\ In domain domains
      /\ name r = (first_name ++ " " ++ last_name)%string
      /\ email r = (PyStr.lower first_name ++ "." ++ PyStr.lower last_name
                    ++ PyStr.str suffix ++ "@" ++ domain)%string)
  /\ In (verified r) ["✅ Verified"; "❌ Unverified"]%string
  /\ In (payout_status r) ["Confirmed"; "Pending"; "Processing"]%string.
Proof.
  unfold demo_client, bind, ret.
  do 2 draw_choice. do 4 draw_sent.
  do 2 draw_uniform. do 2 draw_choice. draw_randint. draw_choice.
  do 2 draw_randint.
  cbn [fst name email verified payout_status].
  split; [|split].
  - do 4 eexists. repeat (split; [eassumption|]). split; reflexivity.
  - match goal with H : In ?b [true; false] |- _ => destruct b end;
      simpl; auto.
  - assumption.
Qed.

Lemma payout_confirmation_fields now i s :
  let p := fst (payout_confirmation now i s) in
  (exists k, (10000 <= k <= 99999)%Z
             /\ confirmation_id p = ("PAY-" ++ PyStr.str k)%string)
  /\ In (method p) ["Cash App"; "Zelle"; "PayPal"; "Bank Transfer"]%string
  /\ In (status p) ["Completed"; "Processing"; "Failed"]%string
  /\ (day now - 14 <= day (payout_date p) <= day now)%Z
  /\ (exists c, (0 <= c <= 19)%Z
                /\ payout_client_id p
                   = ("DD-" ++ PyStr.format_0d 4 (1000 + c))%string).
Proof.
  unfold payout_confirmation, bind, ret.
  draw_randint. draw_uniform. do 2 draw_choice. draw_randint.
  match goal with
  | |- context [randint 1000 1019 ?s1] =>
      pose proof (randint_bounds 1000 1019 s1 ltac:(lia)) as Hcid;
      destruct (randint 1000 1019 s1) as [cid ?]; cbn [fst] in Hcid
  end.
  cbn [fst confirmation_id method status payout_date payout_client_id day].
  split; [|split; [|split; [|split]]]; try assumption.
  - eexists. split; [eassumption | reflexivity].
  - lia.
  - exists (cid - 1000)%Z. split; [lia|].
    now replace (1000 + (cid - 1000))%Z with cid by lia.
Qed.


(** X6: as long as [_randbelow] stays in range, every status of a
    generated journal gets a style from [highlight_status] (never the
    empty one), and two rows with the same style have the same status. *)
Theorem generated_statuses_are_styled now s :
  let journal := fst (generate_payout_confirmations now s) in
  Forall (fun p => highlight_status (status p) <> "") journal
  /\ forall p q,
       In p journal -> In q journal ->
       highlight_status (status p) = highlight_status (status q) ->
       status p = status q.
Proof.
  cbv zeta.
  assert (H : Forall (fun p => In (status p)
                                  ["Completed"; "Processing"; "Failed"]%string)
                     (fst (generate_payout_confirmations now s))).
  { unfold generate_payout_confirmations. apply for_each_Forall. intros i s0.
    apply payout_confirmation_fields. }
  split.
  - eapply Forall_impl; [|exact H]. intros p Hp. simpl in Hp.
    destruct Hp as [<-|[<-|[<-|[]]]]; vm_compute; discriminate.
  - intros p q Hp Hq. rewrite Forall_forall in H.
    pose proof (H p Hp) as Sp. pose proof (H q Hq) as Sq. simpl in Sp, Sq.
    destruct Sp as [<-|[<-|[<-|[]]]]; destruct Sq as [<-|[<-|[<-|[]]]];
      vm_compute; congruence.
Qed.

End GeneratedRanges.

Section GeneratedRangesExamples.

Import Random Generate App Script Sample.

(** The replaying generator stays in range. *)
Lemma replay_in_range seeded : draws_in_range (replay seeded).
Proof.
  intros n s Hn. simpl. destruct (pop s) as [k s']. simpl.
  apply Z.mod_pos_bound. exact Hn.
Qed.


Lemma generated_statuses_are_styled_witness :
  Forall (fun p => highlight_status (status p) <> "") Sample.journal.
Proof.
  exact (proj1 (generated_statuses_are_styled
                  (replay_in_range []) now payout_draws)).
Defined.

End GeneratedRangesExamples.

(** ** The ledger under the starting date range *)

Section DefaultDates.

Import Random Generate App Script.

Context {R : Source}.



End DefaultDates.


(** ** More on the filters *)

Section FilterFacts.

Import App Spec Script Pandas.
Local Open Scope float_scope.

Lemma sidebar_ok_select_verification v w r :
  sidebar_ok (select_verification v w) r
  = ((v =? "All")%string || (verified r =? v)%string)
    && payout_ok w r && balance_ok w r.
Proof. reflexivity. Qed.

Lemma sidebar_ok_select_payout v w r :
  sidebar_ok (select_payout v w) r
  = verification_ok w r
    && ((v =? "All")%string || (payout_status r =? v)%string)
    && balance_ok w r.
Proof. reflexivity. Qed.

Lemma filter_weaker_incl {A} (p q : A -> bool) l :
  (forall x, p x = true -> q x = true) -> incl (filter p l) (filter q l).
Proof.
  intros H x Hx. apply filter_In in Hx as [Hin Hp].
  apply filter_In. auto.
Qed.

(** X8: setting a selector to "All" never hides a row that a specific
    choice of that selector shows: for the verification selector and the
    payout-status selector of the sidebar and for the status selector of the
    payout table, the view under any choice is contained in the view under
    "All", the other widgets being equal. *)
Theorem all_shows_at_least_as_much v w :
  (forall df,
      incl (sidebar_filter (select_verification v w) df)
           (sidebar_filter (select_verification "All" w) df))
  /\ (forall df,
        incl (sidebar_filter (select_payout v w) df)
             (sidebar_filter (select_payout "All" w) df))
  /\ (forall df,
        incl (payouts_filter (select_payout_status v w) df)
             (payouts_filter (select_payout_status "All" w) df)).
Proof.
  repeat split; intros df.
  - rewrite !sidebar_filter_conj. apply filter_weaker_incl. intros r.
    rewrite !sidebar_ok_select_verification. simpl.
    intros H. apply andb_prop in H as [H Hb]. apply andb_prop in H as [_ Hp].
    now rewrite Hp, Hb.
  - rewrite !sidebar_filter_conj. apply filter_weaker_incl. intros r.
    rewrite !sidebar_ok_select_payout. simpl.
    intros H. apply andb_prop in H as [H Hb]. apply andb_prop in H as [Hv _].
    now rewrite Hv, Hb.
  - rewrite !payouts_filter_status.
    apply filter_weaker_incl. intros p _. reflexivity.
Qed.

Lemma filter_length_split {A} (p q1 q2 : A -> bool) (l : list A) :
  Forall (fun x => (q1 x = true /\ q2 x = false /\ p x = true)
                   \/ (q1 x = false /\ q2 x = true /\ p x = true)
                   \/ (q1 x = false /\ q2 x = false /\ p x = false)) l ->
  (List.length (filter q1 l) + List.length (filter q2 l)
   = List.length (filter p l))%nat.
Proof.
  induction 1 as [|x l Hx _ IH]; [reflexivity|]. simpl.
  destruct Hx as [(-> & -> & ->)|[(-> & -> & ->)|(-> & -> & ->)]];
    simpl; lia.
Qed.

(** X9: on a registry whose rows carry one of the two verification
    labels, the rows shown under "Verified" and the rows shown under
    "Unverified" add up to the rows shown under "All", the other sidebar
    widgets being equal. *)
Theorem verification_choices_split_the_view w df :
  Forall (fun r => In (verified r) ["✅ Verified"; "❌ Unverified"]%string) df ->
  (len (sidebar_filter (select_verification "✅ Verified" w) df)
   + len (sidebar_filter (select_verification "❌ Unverified" w) df)
   = len (sidebar_filter (select_verification "All" w) df))%Z.
Proof.
  intros H. unfold len. rewrite !sidebar_filter_conj.
  rewrite <- Nat2Z.inj_add. f_equal.
  apply filter_length_split.
  eapply Forall_impl; [|exact H]. intros r Hr.
  rewrite !sidebar_ok_select_verification.
  destruct (payout_ok w r && balance_ok w r) eqn:E.
  - apply andb_prop in E as [-> ->].
    simpl in Hr. destruct Hr as [<-|[<-|[]]]; [left | right; left];
      repeat split; vm_compute; reflexivity.
  - right; right.
    assert (F : forall b, b && payout_ok w r && balance_ok w r = false).
    { intros b. rewrite <- andb_assoc, E. apply andb_false_r. }
    now rewrite !F.
Qed.

(** On [Sample.registry]: two verified clients and one unverified. *)
Lemma verification_choices_split_the_view_witness :
  (len (sidebar_filter
          (select_verification "✅ Verified"
             (Sample.with_search "" Sample.untouched)) Sample.registry)
   + len (sidebar_filter
            (select_verification "❌ Unverified"
               (Sample.with_search "" Sample.untouched)) Sample.registry)
   = 2)%Z.
Proof.
  rewrite (verification_choices_split_the_view
             (Sample.with_search "" Sample.untouched) Sample.registry).
  - vm_compute. reflexivity.
  - repeat (apply Forall_cons; [simpl; tauto|]). apply Forall_nil.
Defined.

End FilterFacts.

(** ** More on the page *)

Section PageFacts.

Import App Spec Script Pandas.
Local Open Scope float_scope.

Lemma has_status_eq st p : has_status st p = true <-> status p = st.
Proof. unfold has_status. apply String.eqb_eq. Qed.

Lemma filter_length_three {A} (q1 q2 q3 : A -> bool) (l : list A) :
  Forall (fun x => (q1 x = true /\ q2 x = false /\ q3 x = false)
                   \/ (q1 x = false /\ q2 x = true /\ q3 x = false)
                   \/ (q1 x = false /\ q2 x = false /\ q3 x = true)) l ->
  (List.length (filter q1 l) + List.length (filter q2 l)
   + List.length (filter q3 l) = List.length l)%nat.
Proof.
  induction 1 as [|x l Hx _ IH]; [reflexivity|]. simpl.
  destruct Hx as [(-> & -> & ->)|[(-> & -> & ->)|(-> & -> & ->)]];
    simpl; lia.
Qed.

Lemma dropna_all_nan l :
  Forall (fun x => is_nan x = true) l -> dropna l = [].
Proof.
  induction 1 as [|x l Hx _ IH]; [reflexivity|].
  unfold dropna in *. simpl. now rewrite Hx.
Qed.

(** X13: when no row of the registry has a balance that is a number, in
    particular when the registry is empty, the script stops on an exception
    while it sets up the balance slider, whatever the widgets: no page is
    put out. *)
Theorem registry_without_balances_stops_the_script s w :
  Forall (fun r => is_nan (current_balance r) = true) (client_data s) ->
  default_balance_range (client_data s) = None /\ app s w = None.
Proof.
  intros H.
  assert (E : default_balance_range (client_data s) = None).
  { unfold default_balance_range, series_max.
    rewrite dropna_all_nan; [reflexivity|].
    induction H; simpl; constructor; auto. }
  split; [exact E|]. unfold app. now rewrite E.
Qed.

(** With the registry of [generate_demo_clients(0)]. *)
Lemma registry_without_balances_stops_the_script_witness :
  app {| client_data :=
           fst (@Generate.generate_demo_clients (Sample.replay []) 0
                  Sample.now []);
         daily_logs := Sample.some_logs;
         payout_confirmations := Sample.some_payouts |}
      Sample.untouched
  = None.
Proof.
  apply registry_without_balances_stops_the_script. constructor.
Defined.

End PageFacts.

(** ** More on the search box *)

Section SearchFacts.

Import App Spec Script PyStr.






Lemma lower_char_facts c :
  is_ascii (lower_char c) = is_ascii c
  /\ Ascii.eqb (lower_char c) "." = Ascii.eqb c "."
  /\ is_special (lower_char c) = is_special c
  /\ lower_char (lower_char c) = lower_char c.
Proof.
  destruct c as [[] [] [] [] [] [] [] []]; vm_compute; repeat split.
Qed.

Lemma compile_lower t :
  compile (lower t) = option_map (map lower_atom) (compile t).
Proof.
  induction t as [|c t IH]; simpl; [reflexivity|].
  destruct (lower_char_facts c) as (-> & -> & -> & _).
  destruct (is_ascii c); simpl; [|reflexivity].
  rewrite IH.
  destruct (Ascii.eqb c "."); [now destruct (compile t)|].
  destruct (is_special c); [reflexivity|]. now destruct (compile t).
Qed.

Lemma match_here_lower re s :
  match_here (map lower_atom re) s = match_here re s.
Proof.
  revert s. induction re as [|a re IH]; intros s; simpl; [reflexivity|].
  destruct s as [|c s]; [reflexivity|]. rewrite IH. f_equal.
  destruct a as [p|]; simpl; [|reflexivity].
  destruct (lower_char_facts p) as (_ & _ & _ & ->). reflexivity.
Qed.

Lemma search_lower re s : search (map lower_atom re) s = search re s.
Proof.
  induction s as [|c s IH]; simpl; rewrite match_here_lower; [reflexivity|].
  now rewrite IH.
Qed.

Lemma lower_empty t : (lower t =? "")%string = (t =? "")%string.
Proof. now destruct t. Qed.

(** X16: the search box ignores the case of the term: typing the term
    in lower case gives the same client table (and is accepted or refused
    alike). *)
Theorem search_ignores_the_case_of_the_term t w df :
  search_filter (type_search (lower t) w) df
  = search_filter (type_search t w) df.
Proof.
  unfold search_filter. cbn [search_term type_search].
  rewrite lower_empty, compile_lower.
  destruct (t =? "")%string; [reflexivity|].
  destruct (compile t) as [re|]; simpl; [|reflexivity].
  f_equal. apply filter_ext. intros r. now rewrite !search_lower.
Qed.

End SearchFacts.

(** ** Session state, the cache and the refresh buttons *)

Section SessionFacts.

Import Random Generate App Script.

Context {R : Source}.

Lemma cached_demo_clients_warm now p :
  cache_clients (snd (cached_demo_clients now p))
  = Some (fst (cached_demo_clients now p))
  /\ cache_logs (snd (cached_demo_clients now p)) = cache_logs p
  /\ cache_payouts (snd (cached_demo_clients now p)) = cache_payouts p.
Proof.
  unfold cached_demo_clients.
  destruct (cache_clients p) eqn:E; [simpl; auto|].
  destruct (generate_demo_clients 20 now (rng p)). simpl. auto.
Qed.

Lemma cached_daily_logs_warm now p :
  cache_logs (snd (cached_daily_logs now p))
  = Some (fst (cached_daily_logs now p))
  /\ cache_clients (snd (cached_daily_logs now p)) = cache_clients p
  /\ cache_payouts (snd (cached_daily_logs now p)) = cache_payouts p.
Proof.
  unfold cached_daily_logs.
  destruct (cache_logs p) eqn:E; [simpl; auto|].
  destruct (generate_daily_logs 30 now (rng p)). simpl. auto.
Qed.

Lemma cached_payout_confirmations_warm now p :
  cache_payouts (snd (cached_payout_confirmations now p))
  = Some (fst (cached_payout_confirmations now p))
  /\ cache_clients (snd (cached_payout_confirmations now p)) = cache_clients p
  /\ cache_logs (snd (cached_payout_confirmations now p)) = cache_logs p.
Proof.
  unfold cached_payout_confirmations.
  destruct (cache_payouts p) eqn:E; [simpl; auto|].
  destruct (generate_payout_confirmations now (rng p)). simpl. auto.
Qed.

(** X17: the "Load Data" block never overwrites what the session
    already holds and leaves the session with all three datasets; run on a
    session that holds all three it changes nothing, neither the session
    nor the process (no draw, no cache entry), so running it again after
    itself is a no-op. *)
Theorem load_data_fills_only_what_is_missing now ss p :
  let ss' := fst (load_data now ss p) in
  (forall df, ss_client_data ss = Some df -> ss_client_data ss' = Some df)
  /\ (forall df, ss_daily_logs ss = Some df -> ss_daily_logs ss' = Some df)
  /\ (forall df, ss_payout_confirmations ss = Some df ->
                 ss_payout_confirmations ss' = Some df)
  /\ frames ss' <> None
  /\ (frames ss <> None -> load_data now ss p = (ss, p))
  /\ (forall now', load_data now' ss' (snd (load_data now ss p))
                   = load_data now ss p).
Proof.
  cbv zeta. unfold load_data.
  destruct (match ss_client_data ss with
            | Some df => (df, p) | None => cached_demo_clients now p end)
    as [c p1] eqn:E1.
  destruct (match ss_daily_logs ss with
            | Some df => (df, p1) | None => cached_daily_logs now p1 end)
    as [l p2] eqn:E2.
  destruct (match ss_payout_confirmations ss with
            | Some df => (df, p2) | None => cached_payout_confirmations now p2 end)
    as [y p3] eqn:E3.
  cbn [fst snd ss_client_data ss_daily_logs ss_payout_confirmations].
  split; [|split; [|split; [|split; [|split]]]].
  - intros df H. rewrite H in E1. congruence.
  - intros df H. rewrite H in E2. congruence.
  - intros df H. rewrite H in E3. congruence.
  - unfold frames. simpl. discriminate.
  - unfold frames. intros H. destruct ss as [[c0|] [l0|] [y0|]]; simpl in *;
      congruence.
  - intros now'. reflexivity.
Qed.

(** X18: once a new session has been loaded in a process, the data are
    fixed for the life of that process: "Refresh All Data" and "Refresh
    Payouts" return what [st.cache_data] stored, so they leave the session
    and the generator as they are, and every later new session is loaded
    with the same three datasets. *)
Theorem refresh_returns_the_cached_data now0 p0 now :
  let ss1 := fst (load_data now0 new_session p0) in
  let p1 := snd (load_data now0 new_session p0) in
  refresh_all now ss1 p1 = (ss1, p1)
  /\ refresh_payouts now ss1 p1 = (ss1, p1)
  /\ load_data now new_session p1 = (ss1, p1).
Proof.
  cbv zeta. unfold load_data. cbn [new_session ss_client_data ss_daily_logs
                                   ss_payout_confirmations].
  destruct (cached_demo_clients_warm now0 p0) as (C1 & C2 & C3).
  destruct (cached_demo_clients now0 p0) as [c p1]. cbn [fst snd] in *.
  destruct (cached_daily_logs_warm now0 p1) as (L1 & L2 & L3).
  destruct (cached_daily_logs now0 p1) as [l p2]. cbn [fst snd] in *.
  destruct (cached_payout_confirmations_warm now0 p2) as (Y1 & Y2 & Y3).
  destruct (cached_payout_confirmations now0 p2) as [y p3]. cbn [fst snd] in *.
  assert (Hc : cache_clients p3 = Some c) by congruence.
  assert (Hl : cache_logs p3 = Some l) by congruence.
  unfold refresh_all, refresh_payouts,
    cached_demo_clients, cached_daily_logs, cached_payout_confirmations.
  cbn [ss_client_data ss_daily_logs ss_payout_confirmations].
  rewrite Hc, Hl, Y1. repeat split.
Qed.

(** X19: in a process that has just started, the first load gives the
    same three datasets whatever state the generator was in: the registry
    is generated first and re-seeds the generator with 42, the ledger and
    the journal are drawn from the states that follow. *)
Theorem first_load_does_not_depend_on_the_generator_state now s s' :
  fst (load_data now new_session (fresh_process s))
  = fst (load_data now new_session (fresh_process s'))
  /\ frames (fst (load_data now new_session (fresh_process s)))
     = (let (c, s1) := generate_demo_clients 20 now s in
        let (l, s2) := generate_daily_logs 30 now s1 in
        let (y, _) := generate_payout_confirmations now s2 in
        Some {| client_data := c; daily_logs := l;
                payout_confirmations := y |}).
Proof.
  unfold load_data, fresh_process, cached_demo_clients, cached_daily_logs,
    cached_payout_confirmations, frames.
  cbn [new_session ss_client_data ss_daily_logs ss_payout_confirmations
       cache_clients cache_logs cache_payouts rng].
  change (generate_demo_clients 20 now s')
    with (generate_demo_clients 20 now s).
  destruct (generate_demo_clients 20 now s) as [c s1].
  cbn [cache_clients cache_logs cache_payouts rng].
  destruct (generate_daily_logs 30 now s1) as [l s2].
  cbn [cache_clients cache_logs cache_payouts rng].
  destruct (generate_payout_confirmations now s2) as [y s3].
  split; reflexivity.
Qed.

End SessionFacts.

(** On a session that already holds the sample data. *)
Lemma load_data_fills_only_what_is_missing_witness :
  @Script.load_data (Sample.replay []) Sample.now
    {| Script.ss_client_data := Some Sample.registry;
       Script.ss_daily_logs := Some Sample.some_logs;
       Script.ss_payout_confirmations := Some Sample.some_payouts |}
    (@Script.fresh_process (Sample.replay []) Sample.client_draws)
  = ({| Script.ss_client_data := Some Sample.registry;
        Script.ss_daily_logs := Some Sample.some_logs;
        Script.ss_payout_confirmations := Some Sample.some_payouts |},
     @Script.fresh_process (Sample.replay []) Sample.client_draws).
Proof.
  refine (proj1 (proj2 (proj2 (proj2 (proj2
            (load_data_fills_only_what_is_missing
               (R := Sample.replay []) Sample.now _ _))))) _).
  simpl. discriminate.
Defined.

(** ** One run of the script, whatever the search term *)

Section RunFacts.

Import App Spec Pandas Run.
Local Open Scope float_scope.

Context {E : Regex}.

(** The key metrics row never stops on a division by zero. *)
Lemma key_metrics_row_defined client_df filtered_df payouts_df :
  exists m,
    key_metrics_row client_df filtered_df payouts_df = Some m
    /\ km_total_clients m = len filtered_df
    /\ km_total_clients_delta m
       = (len filtered_df - len client_df + len filtered_df)%Z
    /\ km_total_sent m = series_sum (map total_sent filtered_df)
    /\ km_total_sent_delta m = avg_delta (km_total_sent m) (len filtered_df)
    /\ km_total_balance m = series_sum (map current_balance filtered_df)
    /\ km_total_balance_delta m
       = avg_delta (km_total_balance m) (len filtered_df)
    /\ verification_rate_of (len (filter is_verified filtered_df))
                            (len filtered_df)
       = Some (km_verification_rate m)
    /\ km_verified_delta m
       = (len (filter is_verified filtered_df), len filtered_df)
    /\ km_confirmed_payouts m = len (filter (has_status "Completed") payouts_df)
    /\ km_confirmed_payouts_delta m = len payouts_df.
Proof.
  unfold key_metrics_row. fold is_verified.
  rewrite verification_rate_of_defined. eexists. split; [reflexivity|].
  cbn [km_total_clients km_total_clients_delta km_total_sent
       km_total_sent_delta km_total_balance km_total_balance_delta
       km_verification_rate km_verified_delta km_confirmed_payouts
       km_confirmed_payouts_delta].
  repeat (split; [reflexivity|]). reflexivity.
Qed.

Lemma metrics_of_full_page m client_df view logs payouts_df filtered_payouts :
  metrics_of (full_page m client_df view logs payouts_df filtered_payouts) = m.
Proof. now destruct m. Qed.

(** What a run has rendered when it shows the key metrics row. *)
Lemma script_metrics s w m :
  metrics_shown (script s w) = Some m ->
  slider_setup (client_data s) <> None
  /\ key_metrics_row (client_data s) (sidebar_filter w (client_data s))
                     (payout_confirmations s)
     = Some m.
Proof.
  unfold script.
  destruct (slider_setup (client_data s)) as [range|]; [|discriminate].
  destruct (key_metrics_row _ _ _) as [m0|]; [|discriminate].
  destruct (search_box w _) as [view|]; simpl.
  - rewrite metrics_of_full_page. intros [= <-]. split; [discriminate|reflexivity].
  - intros [= <-]. split; [discriminate|reflexivity].
Qed.

(** What a completed run has rendered. *)
Lemma script_completed s w pg :
  script s w = Completed pg ->
  exists m view,
    key_metrics_row (client_data s) (sidebar_filter w (client_data s))
                    (payout_confirmations s)
    = Some m
    /\ search_box w (sidebar_filter w (client_data s)) = Some view
    /\ pg = full_page m (client_data s) view (logs_filter w (daily_logs s))
              (payout_confirmations s)
              (payouts_filter w (payout_confirmations s)).
Proof.
  unfold script.
  destruct (slider_setup (client_data s)) as [range|]; [|discriminate].
  destruct (key_metrics_row _ _ _) as [m0|]; [|discriminate].
  destruct (search_box w _) as [view|]; [|discriminate].
  intros [= <-]. exists m0, view. repeat split.
Qed.

(** The search box only ever removes rows. *)
Lemma search_box_filters w df view :
  search_box w df = Some view -> exists keep, view = filter keep df.
Proof.
  unfold search_box.
  destruct (search_term w =? "")%string.
  - intros [= <-]. exists (fun _ => true).
    induction df as [|r df IH]; simpl; congruence.
  - destruct (re_compile (search_term w)) as [pat|]; [|discriminate].
    intros [= <-]. eexists. reflexivity.
Qed.

(** C1, as the code has it: in every run of the script, whatever the
    search term and whatever [re] makes of it, the total sent, the total
    balance and the verification rate of the key metrics row (shown also
    when the search box then raises) are taken over the clients that pass
    the three sidebar predicates (verification, payout status, balance
    range); in every run that completes, the per-channel totals, the
    average daily amount and the period total are taken over the ledger
    rows of the date filter, and the completed amount and the processing
    and failed counts over the whole payout journal, whatever status is
    selected for the payout table. *)
Theorem displayed_metrics_views s w :
  (forall m,
      metrics_shown (script s w) = Some m ->
      let clients_view := filter (sidebar_ok w) (client_data s) in
      km_total_sent m = series_sum (map total_sent clients_view)
      /\ km_total_balance m = series_sum (map current_balance clients_view)
      /\ verification_rate_of (len (filter is_verified clients_view))
                              (len clients_view)
         = Some (km_verification_rate m))
  /\ (forall pg,
        script s w = Completed pg ->
        let clients_view := filter (sidebar_ok w) (client_data s) in
        let ledger_view := logs_filter w (daily_logs s) in
        let journal := payout_confirmations s in
        shown_total_sent pg = series_sum (map total_sent clients_view)
        /\ shown_total_balance pg
           = series_sum (map current_balance clients_view)
        /\ verification_rate_of (len (filter is_verified clients_view))
                                (len clients_view)
           = Some (shown_verification_rate pg)
        /\ shown_cash_app pg = series_sum (map log_cash_app ledger_view)
        /\ shown_zelle pg = series_sum (map log_zelle ledger_view)
        /\ shown_paypal pg = series_sum (map log_paypal ledger_view)
        /\ shown_bank_transfer pg
           = series_sum (map log_bank_transfer ledger_view)
        /\ shown_avg_daily pg = series_mean (map daily_total ledger_view)
        /\ shown_total_period pg = series_sum (map daily_total ledger_view)
        /\ shown_completed_amount pg
           = series_sum (map amount (filter (has_status "Completed") journal))
        /\ shown_processing_count pg
           = len (filter (has_status "Processing") journal)
        /\ shown_failed_count pg = len (filter (has_status "Failed") journal)).
Proof.
  assert (Hm : forall m,
             key_metrics_row (client_data s) (sidebar_filter w (client_data s))
                             (payout_confirmations s) = Some m ->
             km_total_sent m
             = series_sum (map total_sent (filter (sidebar_ok w) (client_data s)))
             /\ km_total_balance m
                = series_sum (map current_balance
                                  (filter (sidebar_ok w) (client_data s)))
             /\ verification_rate_of
                  (len (filter is_verified (filter (sidebar_ok w) (client_data s))))
                  (len (filter (sidebar_ok w) (client_data s)))
                = Some (km_verification_rate m)).
  { intros m Hrow.
    destruct (key_metrics_row_defined (client_data s)
                (sidebar_filter w (client_data s)) (payout_confirmations s))
      as (m' & Hrow' & _ & _ & Hsent & _ & Hbal & _ & Hrate & _).
    rewrite Hrow in Hrow'. injection Hrow' as <-.
    rewrite sidebar_filter_conj in Hsent, Hbal, Hrate. auto. }
  split.
  - intros m H. cbv zeta. apply Hm. now apply script_metrics.
  - intros pg H. cbv zeta.
    destruct (script_completed s w pg H) as (m & view & Hrow & _ & ->).
    destruct (Hm m Hrow) as (Hsent & Hbal & Hrate).
    cbn [full_page shown_total_sent shown_total_balance shown_verification_rate
         shown_cash_app shown_zelle shown_paypal shown_bank_transfer
         shown_avg_daily shown_total_period shown_completed_amount
         shown_processing_count shown_failed_count].
    repeat (split; [first [assumption | reflexivity]|]). reflexivity.
Qed.

(** With no client left by the sidebar filters, the two average deltas
    read "N/A" and the verification rate is 0. *)
Lemma guarded_metrics_fall_back s w m :
  metrics_shown (script s w) = Some m ->
  sidebar_filter w (client_data s) = [] ->
  km_total_sent_delta m = NotApplicable
  /\ km_total_balance_delta m = NotApplicable
  /\ km_verification_rate m = 0.
Proof.
  intros H Hempty. apply script_metrics in H as [_ H].
  destruct (key_metrics_row_defined (client_data s)
              (sidebar_filter w (client_data s)) (payout_confirmations s))
    as (m' & Hrow' & _ & _ & _ & Hsd & _ & Hbd & Hrate & _).
  rewrite H in Hrow'. injection Hrow' as <-.
  rewrite Hempty in *. simpl in *. injection Hrate as <-. auto.
Qed.

(** With no ledger row left by the date filter, the average daily amount
    of a completed run is the mean of an empty column, NaN. *)
Lemma average_of_no_rows_is_nan s w pg :
  script s w = Completed pg ->
  logs_filter w (daily_logs s) = [] ->
  shown_avg_daily pg = nan.
Proof.
  intros H Hempty. destruct (script_completed s w pg H) as (m & view & _ & _ & ->).
  simpl. now rewrite Hempty.
Qed.

End RunFacts.

Section RunExamples.

Import App Spec Pandas Run.
Local Open Scope float_scope.

(** With the patterns of [PyStr.compile], a completed run is a page of
    [app]. *)
Lemma script_fragment_is_app s w pg :
  script (E := fragment) s w = Completed pg -> app s w = Some pg.
Proof.
  unfold script, app, slider_setup, key_metrics_row.
  destruct (default_balance_range (client_data s)) as [[lo hi]|]; [|discriminate].
  destruct (slider_accepts hi); [|discriminate].
  destruct (verification_rate_of _ _) as [rate|]; [|discriminate].
  change (@search_box fragment) with search_filter.
  destruct (search_filter w _) as [view|]; [|discriminate].
  intros [= <-]. reflexivity.
Qed.

(** On [Sample.data], with "alex" in the search box and "Completed"
    selected for the payout table; and with a parenthesis in the search
    box, where the run stops after the key metrics row. *)
Lemma displayed_metrics_views_witness :
  (exists pg,
      script (E := fragment) Sample.data
        (Sample.with_search "alex"
           (Sample.with_payout_status "Completed" Sample.untouched))
      = Completed pg
      /\ shown_total_sent pg
         = series_sum (map total_sent [Sample.alexander; Sample.michael])
      /\ shown_processing_count pg = 1%Z)
  /\ (exists m,
        script (E := fragment) Sample.data
          (Sample.with_search "(" Sample.untouched)
        = StoppedAtSearch m
        /\ km_total_sent m
           = series_sum (map total_sent [Sample.alexander; Sample.michael])).
Proof.
  split.
  - eexists. split; [vm_compute; reflexivity|].
    match goal with
    | |- context [shown_total_sent ?pg] =>
        destruct (proj2 (displayed_metrics_views (E := fragment) Sample.data
                           (Sample.with_search "alex"
                              (Sample.with_payout_status "Completed"
                                 Sample.untouched)))
                        pg eq_refl)
          as (Hsent & _ & _ & _ & _ & _ & _ & _ & _ & _ & Hproc & _)
    end.
    split; [exact Hsent | exact Hproc].
  - eexists. split; [vm_compute; reflexivity|].
    match goal with
    | |- context [km_total_sent ?m] =>
        exact (proj1 (proj1 (displayed_metrics_views (E := fragment) Sample.data
                               (Sample.with_search "(" Sample.untouched))
                            m eq_refl))
    end.
Defined.

(** C7, at the failing input: on [Sample.data] with [Sample.nothing_left]
    (no client passes the sidebar filters, no ledger row is in the date
    range) the run completes; the two average deltas read "N/A" and the
    verification rate is 0, as lines 249, 257 and 262 provide, but the
    average daily amount of line 384 is NaN. *)
Theorem average_daily_amount_has_no_fallback :
  exists pg,
    script (E := fragment) Sample.data Sample.nothing_left = Completed pg
    /\ shown_total_clients pg = 0%Z
    /\ shown_days_tracked pg = 0%Z
    /\ shown_total_sent_delta pg = NotApplicable
    /\ shown_total_balance_delta pg = NotApplicable
    /\ shown_verification_rate pg = 0
    /\ is_nan (shown_avg_daily pg) = true.
Proof.
  eexists. split; [vm_compute; reflexivity|].
  repeat split; vm_compute; reflexivity.
Qed.

End RunExamples.

(** ** Names, emails and labels of the generated clients *)

Section GeneratedNames.

Import Random Generate App Script.

Context {R : Source}.
Hypothesis in_range : draws_in_range R.

(** X4: as long as [_randbelow] stays in range, every row of a generated
    registry has a name made of a listed first name, a space and a listed
    last name, an email derived from that name (both parts lower-cased and
    joined by a dot, followed by a number from 1 to 99, "@" and a listed
    domain), one of the two verification labels and one of the three payout
    statuses. *)
Theorem client_rows_are_well_formed num_clients now s :
  Forall (fun r =>
            (exists first_name last_name suffix domain,
                In first_name first_names /\ In last_name last_names
                /\ (1 <= suffix <= 99)%Z /\ In domain domains
                /\ name r = (first_name ++ " " ++ last_name)%string
                /\ email r
                   = (PyStr.lower first_name ++ "." ++ PyStr.lower last_name
                      ++ PyStr.str suffix ++ "@" ++ domain)%string)
            /\ In (verified r) ["✅ Verified"; "❌ Unverified"]%string
            /\ In (payout_status r) ["Confirmed"; "Pending"; "Processing"]%string)
         (fst (generate_demo_clients num_clients now s)).
Proof.
  unfold generate_demo_clients. apply for_each_Forall. intros i s0.
  apply (demo_client_fields in_range).
Qed.

End GeneratedNames.

(** The two clients of [Sample.clients]. *)
Lemma client_rows_are_well_formed_witness :
  Forall (fun r =>
            In (verified r) ["✅ Verified"; "❌ Unverified"]%string
            /\ In (payout_status r) ["Confirmed"; "Pending"; "Processing"]%string)
         Sample.clients.
Proof.
  pose proof (client_rows_are_well_formed
                (replay_in_range Sample.client_draws) 2 Sample.now []) as H.
  change (fst (@Generate.generate_demo_clients
                 (Sample.replay Sample.client_draws) 2 Sample.now []))
    with Sample.clients in H.
  eapply Forall_impl; [|exact H].
  intros r (_ & Hv & Hp). split; assumption.
Defined.

(** ** The counts and tallies of a completed run *)

Section RunCounts.

Import App Spec Script Pandas Run.
Local Open Scope float_scope.

Context {E : Regex}.

(** X10: on every page of a completed run, whatever the search term,
    with a status other than "All" selected for the payout table, the
    table holds exactly the rows of the journal with that status, in order;
    under "Completed" its length is the "Confirmed Payouts" metric and the
    amounts of its rows (as numbers, before they are formatted) add up to
    the "Completed Payouts" metric, under "Processing" and "Failed" its
    length is the matching count. *)
Theorem payout_table_matches_the_tallies s w pg :
  script s w = Completed pg ->
  payout_status_filter w <> "All"%string ->
  payouts_table pg
  = filter (has_status (payout_status_filter w)) (payout_confirmations s)
  /\ Forall (fun p => status p = payout_status_filter w) (payouts_table pg)
  /\ (payout_status_filter w = "Completed"%string ->
      len (payouts_table pg) = shown_confirmed_payouts pg
      /\ series_sum (map amount (payouts_table pg)) = shown_completed_amount pg)
  /\ (payout_status_filter w = "Processing"%string ->
      len (payouts_table pg) = shown_processing_count pg)
  /\ (payout_status_filter w = "Failed"%string ->
      len (payouts_table pg) = shown_failed_count pg).
Proof.
  intros H Hsel.
  destruct (script_completed s w pg H) as (m & view & Hrow & _ & ->).
  destruct (key_metrics_row_defined (client_data s)
              (sidebar_filter w (client_data s)) (payout_confirmations s))
    as (m' & Hrow' & _ & _ & _ & _ & _ & _ & _ & _ & Hconf & _).
  rewrite Hrow in Hrow'. injection Hrow' as <-.
  cbn [full_page payouts_table shown_confirmed_payouts shown_completed_amount
       shown_processing_count shown_failed_count].
  assert (Et : payouts_filter w (payout_confirmations s)
               = filter (has_status (payout_status_filter w))
                        (payout_confirmations s)).
  { unfold payouts_filter.
    destruct (payout_status_filter w =? "All")%string eqn:Ea;
      [apply String.eqb_eq in Ea; contradiction | reflexivity]. }
  rewrite Et. split; [reflexivity|]. split.
  - apply Forall_forall. intros p Hp.
    apply filter_In in Hp as [_ Hp]. now apply has_status_eq.
  - split; [|split]; intros Hst; rewrite Hst.
    + split; [now rewrite Hconf | reflexivity].
    + reflexivity.
    + reflexivity.
Qed.

(** X11: on every page of a completed run for a journal whose rows
    carry one of the three statuses, the completed, processing and failed
    tallies add up to the number of rows of the journal, whatever the
    widgets and the search term. *)
Theorem payout_tallies_add_up s w pg :
  script s w = Completed pg ->
  Forall (fun p => In (status p) ["Completed"; "Processing"; "Failed"]%string)
         (payout_confirmations s) ->
  (shown_confirmed_payouts pg + shown_processing_count pg
   + shown_failed_count pg
   = shown_confirmed_payouts_delta pg)%Z
  /\ shown_confirmed_payouts_delta pg = len (payout_confirmations s).
Proof.
  intros H Hst.
  destruct (script_completed s w pg H) as (m & view & Hrow & _ & ->).
  destruct (key_metrics_row_defined (client_data s)
              (sidebar_filter w (client_data s)) (payout_confirmations s))
    as (m' & Hrow' & _ & _ & _ & _ & _ & _ & _ & _ & Hconf & Hlen).
  rewrite Hrow in Hrow'. injection Hrow' as <-.
  cbn [full_page shown_confirmed_payouts shown_processing_count
       shown_failed_count shown_confirmed_payouts_delta].
  split; [|exact Hlen]. rewrite Hconf, Hlen. unfold len.
  rewrite <- !Nat2Z.inj_add. f_equal.
  apply filter_length_three.
  eapply Forall_impl; [|exact Hst]. intros p Hp. unfold has_status.
  simpl in Hp. destruct Hp as [<-|[<-|[<-|[]]]];
    [left | right; left | right; right]; repeat split; reflexivity.
Qed.

(** X12: on every page of a completed run, whatever the search term,
    the counts agree with each other: the client table has no more rows
    than the "Total Clients" metric, which has no more than the registry;
    "hidden" is the registry minus the table and is never negative; the
    verified count is at most the client count; the "filtered" delta is the
    client count minus the rows the sidebar hides; the days tracked are at
    most the rows of the ledger, and the payout table has at most the rows
    of the journal. *)
Theorem page_counts_are_consistent s w pg :
  script s w = Completed pg ->
  (0 <= len (client_table pg) <= shown_total_clients pg)%Z
  /\ (shown_total_clients pg <= len (client_data s))%Z
  /\ shown_hidden pg = (len (client_data s) - len (client_table pg))%Z
  /\ (0 <= shown_hidden pg)%Z
  /\ (0 <= fst (shown_verified_delta pg) <= snd (shown_verified_delta pg))%Z
  /\ snd (shown_verified_delta pg) = shown_total_clients pg
  /\ shown_total_clients_delta pg
     = (shown_total_clients pg
        - (len (client_data s) - shown_total_clients pg))%Z
  /\ (shown_days_tracked pg <= len (daily_logs s))%Z
  /\ (len (payouts_table pg) <= len (payout_confirmations s))%Z.
Proof.
  intros H.
  destruct (script_completed s w pg H) as (m & view & Hrow & Hview & ->).
  destruct (key_metrics_row_defined (client_data s)
              (sidebar_filter w (client_data s)) (payout_confirmations s))
    as (m' & Hrow' & Hn & Hdelta & _ & _ & _ & _ & _ & Hv & _).
  rewrite Hrow in Hrow'. injection Hrow' as <-.
  destruct (search_box_filters _ _ _ Hview) as [keep ->].
  cbn [full_page client_table shown_total_clients shown_hidden
       shown_verified_delta shown_total_clients_delta shown_days_tracked
       payouts_table].
  assert (L1 := filter_length_le keep (sidebar_filter w (client_data s))).
  assert (L2 := filter_length_le (sidebar_ok w) (client_data s)).
  assert (L3 := filter_length_le is_verified (sidebar_filter w (client_data s))).
  rewrite <- sidebar_filter_conj in L2.
  assert (L4 : (List.length (logs_filter w (daily_logs s))
                <= List.length (daily_logs s))%nat).
  { unfold logs_filter.
    destruct (date_range w) as [|a [|b [|c rest]]]; auto.
    apply filter_length_le. }
  assert (L5 : (List.length (payouts_filter w (payout_confirmations s))
                <= List.length (payout_confirmations s))%nat).
  { rewrite payouts_filter_status. apply filter_length_le. }
  rewrite Hdelta, Hv, Hn. unfold len in *. cbn [fst snd].
  repeat split; lia.
Qed.

End RunCounts.

Section RunCountsExamples.

Import App Spec Script Pandas Run.

(** On [Sample.data] with "Completed" selected. *)
Lemma payout_table_matches_the_tallies_witness :
  exists pg,
    script (E := fragment) Sample.data
      (Sample.with_payout_status "Completed" Sample.untouched)
    = Completed pg
    /\ len (payouts_table pg) = shown_confirmed_payouts pg
    /\ shown_confirmed_payouts pg = 2%Z.
Proof.
  eexists. split; [vm_compute; reflexivity|].
  match goal with
  | |- context [payouts_table ?pg] =>
      destruct (payout_table_matches_the_tallies (E := fragment) Sample.data
                  (Sample.with_payout_status "Completed" Sample.untouched)
                  pg eq_refl ltac:(discriminate))
        as (_ & _ & Hc & _)
  end.
  split; [exact (proj1 (Hc eq_refl)) | reflexivity].
Defined.

(** On [Sample.data]: 2 completed, 1 processing, 1 failed of 4. *)
Lemma payout_tallies_add_up_witness :
  exists pg,
    script (E := fragment) Sample.data Sample.untouched = Completed pg
    /\ (shown_confirmed_payouts pg + shown_processing_count pg
        + shown_failed_count pg = 4)%Z.
Proof.
  eexists. split; [vm_compute; reflexivity|].
  match goal with
  | |- context [shown_failed_count ?pg] =>
      destruct (payout_tallies_add_up (E := fragment) Sample.data
                  Sample.untouched pg eq_refl)
        as (Hsum & Hlen)
  end.
  - repeat (apply Forall_cons; [simpl; tauto|]). apply Forall_nil.
  - rewrite Hsum, Hlen. reflexivity.
Defined.

(** On [Sample.data] with "alex" in the search box. *)
Lemma page_counts_are_consistent_witness :
  exists pg,
    script (E := fragment) Sample.data
      (Sample.with_search "alex" Sample.untouched)
    = Completed pg
    /\ (len (client_table pg) <= shown_total_clients pg)%Z
    /\ shown_hidden pg = 2%Z.
Proof.
  eexists. split; [vm_compute; reflexivity|].
  match goal with
  | |- context [client_table ?pg] =>
      destruct (page_counts_are_consistent (E := fragment) Sample.data
                  (Sample.with_search "alex" Sample.untouched) pg eq_refl)
        as (H1 & _ & H3 & _)
  end.
  split; [exact (proj2 H1)|]. rewrite H3. reflexivity.
Defined.

(** X15: a search term made of ordinary ASCII characters only (no
    character that is special in a regular expression) is always accepted
    by the search box; then, on a registry whose names and emails are ASCII
    text, the client table of every completed run holds exactly the rows of
    the registry that pass the four predicates together: verification,
    payout status, balance range, and name or email containing the term,
    case ignored. *)
Theorem plain_search_is_the_four_predicates s w :
  plain (search_term w) = true ->
  Forall (fun r => ascii_text (name r) && ascii_text (email r) = true)
         (client_data s) ->
  search_box (E := fragment) w (sidebar_filter w (client_data s)) <> None
  /\ forall pg,
       script (E := fragment) s w = Completed pg ->
       client_table pg
       = filter (fun r => verification_ok w r && payout_ok w r
                          && balance_ok w r && search_ok w r)
                (client_data s).
Proof.
  intros Hp _. split.
  - unfold search_box. cbn [re_compile fragment].
    destruct (search_term w =? "")%string; [discriminate|].
    now rewrite (compile_plain _ Hp).
  - intros pg H. apply script_fragment_is_app in H.
    rewrite (client_table_is_conjunction _ _ _ H).
    apply filter_ext. intros r.
    now rewrite (plain_term_is_substring_search w r Hp).
Qed.

(** On [Sample.data] with "JOHNSON" in the search box. *)
Lemma plain_search_is_the_four_predicates_witness :
  exists pg,
    script (E := fragment) Sample.data
      (Sample.with_search "JOHNSON" Sample.untouched)
    = Completed pg
    /\ client_table pg = [Sample.alexander].
Proof.
  eexists. split; [vm_compute; reflexivity|].
  match goal with
  | |- client_table ?pg = _ =>
      rewrite (proj2 (plain_search_is_the_four_predicates Sample.data
                        (Sample.with_search "JOHNSON" Sample.untouched)
                        eq_refl
                        ltac:(repeat (apply Forall_cons; [reflexivity|]);
                              apply Forall_nil))
                     pg eq_refl)
  end.
  vm_compute. reflexivity.
Defined.

End RunCountsExamples.
